(** * alicloud-controller-manager: client manager and load-balancer resolver

    A shallow embedding of

    - [cloud-controller-manager/alicloud/clientmgr.go]: the credential
      holder [TokenAuth], the constructor [NewClientMgr] with its periodic
      token refresh, and the static metadata accessor [fakeMetaData];
    - [cloudprovider/alicloud/loadbalancer_test.go]: the SLB client double
      [mockClientSLB] and the scenario of [TestFindLoadBalancer].

    Go strings are byte strings and are modelled by [string]; a Go [error]
    is modelled by its message. *)

From Stdlib Require Import Ascii String.
From stdpp Require Import base strings list gmap.

Open Scope string_scope.

(** ** Results of fallible Go calls *)

(** A Go return pair [(v, err)]: either a value with a nil error, or an
    error carrying its message. *)
Inductive result (A : Type) : Type :=
| Ok (v : A)
| Err (msg : string).
Arguments Ok {A} v.
Arguments Err {A} msg.

Definition is_err {A} (r : result A) : bool :=
  match r with Ok _ => false | Err _ => true end.

(** ** The part of Go's [strings] package the code uses *)

Module GoStrings.

(** [strings.Split(s, sep)] for a one-byte separator: the pieces of [s]
    between the separators, in order; always at least one piece. *)
Fixpoint Split (sep : ascii) (s : string) : list string :=
  match s with
  | EmptyString => [EmptyString]
  | String c s' =>
      if Ascii.eqb c sep then EmptyString :: Split sep s'
      else match Split sep s' with
           | [] => [String c EmptyString]
           | p :: ps => String c p :: ps
           end
  end.

(** [strings.Join(parts, sep)] for a one-byte separator. *)
Fixpoint Join (sep : ascii) (parts : list string) : string :=
  match parts with
  | [] => EmptyString
  | [p] => p
  | p :: ps => p +:+ String sep (Join sep ps)
  end.

(** Number of occurrences of the byte [c] in [s] ([strings.Count]). *)
Fixpoint Count (c : ascii) (s : string) : nat :=
  match s with
  | EmptyString => 0
  | String d s' => (if Ascii.eqb d c then 1 else 0) + Count c s'
  end.

End GoStrings.

Import GoStrings.

(** [s != ""] *)
Definition nonempty (s : string) : bool := negb (String.eqb s "").

(** ** Packages the client manager depends on *)

(** [metadata.RoleAuth]: the role credential returned by the instance
    metadata service (the three fields the manager reads). *)
Module metadata.
Record RoleAuth : Type := {
  AccessKeyId : string;
  AccessKeySecret : string;
  SecurityToken : string
}.
End metadata.

(** [common.Client], embedded in [ecs.Client] and [slb.Client]: the
    credentials a client handle signs its requests with, its region and
    user agent, and the setters the refresh task calls. The handle keeps
    the secret in the form it signs with: the secret followed by [&]. *)
Module common.
Record Client : Type := {
  AccessKeyId : string;
  AccessKeySecret : string;
  securityToken : string;
  regionID : string;
  userAgent : string
}.

Definition NewClientWithSecurityToken (keyid sec tok region : string) : Client :=
  {| AccessKeyId := keyid; AccessKeySecret := sec +:+ "&";
     securityToken := tok; regionID := region; userAgent := "" |}.

Definition SetUserAgent (ua : string) (c : Client) : Client :=
  {| AccessKeyId := AccessKeyId c; AccessKeySecret := AccessKeySecret c;
     securityToken := securityToken c; regionID := regionID c;
     userAgent := ua |}.

Definition WithSecurityToken (tok : string) (c : Client) : Client :=
  {| AccessKeyId := AccessKeyId c; AccessKeySecret := AccessKeySecret c;
     securityToken := tok; regionID := regionID c;
     userAgent := userAgent c |}.

Definition WithAccessKeyId (id : string) (c : Client) : Client :=
  {| AccessKeyId := id; AccessKeySecret := AccessKeySecret c;
     securityToken := securityToken c; regionID := regionID c;
     userAgent := userAgent c |}.

Definition WithAccessKeySecret (sec : string) (c : Client) : Client :=
  {| AccessKeyId := AccessKeyId c; AccessKeySecret := sec +:+ "&";
     securityToken := securityToken c; regionID := regionID c;
     userAgent := userAgent c |}.

(** The credentials a handle currently carries, as its fields hold
    them. *)
Definition credentials (c : Client) : string * string * string :=
  (AccessKeyId c, AccessKeySecret c, securityToken c).
End common.

(** [cfg.Global]: the cloud-config overrides read by the metadata
    accessor. *)
Module cfg.
Record Global : Type := {
  Region : string;
  VpcID : string;
  VswitchID : string;
  ZoneID : string
}.
End cfg.

(** ** clientmgr.go *)

(** [TokenAuth]; the [lock] field guards [auth] and is held for the whole
    of a refresh, which is therefore one atomic step below. *)
Record TokenAuth : Type := {
  auth : metadata.RoleAuth;
  active : bool
}.

Definition authid (token : TokenAuth) : string * string * string :=
  (metadata.AccessKeyId (auth token),
   metadata.AccessKeySecret (auth token),
   metadata.SecurityToken (auth token)).

(** The triple of a role credential. *)
Definition triple (role : metadata.RoleAuth) : string * string * string :=
  (metadata.AccessKeyId role, metadata.AccessKeySecret role,
   metadata.SecurityToken role).

(** A credential triple as a client handle holds it: the secret is
    followed by [&]. *)
Definition signing_form (credential : string * string * string)
  : string * string * string :=
  let '(keyid, sec, tok) := credential in (keyid, sec +:+ "&", tok).

(** [IMetaData]. The answers of the metadata service change with time, so
    every method reads the state [W] of the outside world at the moment of
    the call. *)
Module IMeta.
Record IMetaData (W : Type) : Type := {
  HostName : W -> result string;
  ImageID : W -> result string;
  InstanceID : W -> result string;
  Mac : W -> result string;
  NetworkType : W -> result string;
  OwnerAccountID : W -> result string;
  PrivateIPv4 : W -> result string;
  Region : W -> result string;
  SerialNumber : W -> result string;
  SourceAddress : W -> result string;
  VpcCIDRBlock : W -> result string;
  VpcID : W -> result string;
  VswitchCIDRBlock : W -> result string;
  Zone : W -> result string;
  NTPConfigServers : W -> result (list string);
  RoleName : W -> result string;
  RamRoleToken : W -> string -> result metadata.RoleAuth;
  VswitchID : W -> result string
}.
Arguments HostName {W}. Arguments ImageID {W}. Arguments InstanceID {W}.
Arguments Mac {W}. Arguments NetworkType {W}. Arguments OwnerAccountID {W}.
Arguments PrivateIPv4 {W}. Arguments Region {W}. Arguments SerialNumber {W}.
Arguments SourceAddress {W}. Arguments VpcCIDRBlock {W}. Arguments VpcID {W}.
Arguments VswitchCIDRBlock {W}. Arguments Zone {W}.
Arguments NTPConfigServers {W}. Arguments RoleName {W}.
Arguments RamRoleToken {W}. Arguments VswitchID {W}.
End IMeta.
Export IMeta.

(** [fakeMetaData]: the accessor that answers from [cfg.Global] and falls
    back on [base] for the region and the zone. *)
Module fakeMetaData.
Section Methods.
Context {W : Type}.
Variable Global : cfg.Global.
Variable base : IMetaData W.

Definition unimplemented {A} : result A := Err "unimplemented".

Definition HostName (w : W) : result string := unimplemented.
Definition ImageID (w : W) : result string := unimplemented.
Definition InstanceID (w : W) : result string := Ok "fakedInstanceid".
Definition Mac (w : W) : result string := unimplemented.
Definition NetworkType (w : W) : result string := unimplemented.
Definition OwnerAccountID (w : W) : result string := unimplemented.
Definition PrivateIPv4 (w : W) : result string := unimplemented.

Definition Region (w : W) : result string :=
  if nonempty (cfg.Region Global) then Ok (cfg.Region Global)
  else IMeta.Region base w.

Definition SerialNumber (w : W) : result string := unimplemented.
Definition SourceAddress (w : W) : result string := unimplemented.
Definition VpcCIDRBlock (w : W) : result string := unimplemented.
Definition VpcID (w : W) : result string := Ok (cfg.VpcID Global).
Definition VswitchCIDRBlock (w : W) : result string := unimplemented.

Definition Zone (w : W) : result string :=
  if nonempty (cfg.ZoneID Global) then Ok (cfg.ZoneID Global)
  else IMeta.Zone base w.

(** The [for _, zone := range zlist] loop of [VswitchID]. Its loop
    variable is named [zone] as well and hides the instance zone fetched
    before the loop, so [vs[0] == zone] compares the first piece of an
    entry with the entry itself. [None]: the loop ran to its end. *)
Fixpoint VswitchID_range (zone : string) (zlist : list string)
  : option (result string) :=
  match zlist with
  | [] => None
  | zone :: rest =>
      let vs := Split ":" zone in
      if negb (Nat.eqb (length vs) 2) then
        Some (Err ("cloud-config vswitch format error: "
                     +:+ cfg.VswitchID Global))
      else if String.eqb (nth 0 vs "") zone then Some (Ok (nth 1 vs ""))
      else VswitchID_range zone rest
  end.

(** zone1:vswitchid1,zone2:vswitch2 *)
Definition VswitchID (w : W) : result string :=
  let zlist := Split "," (cfg.VswitchID Global) in
  if Nat.eqb (length zlist) 1 then Ok (cfg.VswitchID Global)
  else
    match Zone w with
    | Err err => Err ("retrieve vswitchid error for " +:+ err)
    | Ok zone =>
        match VswitchID_range zone zlist with
        | Some r => r
        | None => Ok (cfg.VswitchID Global)
        end
    end.

Definition NTPConfigServers (w : W) : result (list string) := unimplemented.
Definition RoleName (w : W) : result string := unimplemented.
Definition RamRoleToken (w : W) (role : string) : result metadata.RoleAuth :=
  unimplemented.

(** A [*fakeMetaData] seen through the interface. *)
Definition new : IMetaData W :=
  {| IMeta.HostName := HostName; IMeta.ImageID := ImageID;
     IMeta.InstanceID := InstanceID; IMeta.Mac := Mac;
     IMeta.NetworkType := NetworkType;
     IMeta.OwnerAccountID := OwnerAccountID;
     IMeta.PrivateIPv4 := PrivateIPv4; IMeta.Region := Region;
     IMeta.SerialNumber := SerialNumber;
     IMeta.SourceAddress := SourceAddress;
     IMeta.VpcCIDRBlock := VpcCIDRBlock; IMeta.VpcID := VpcID;
     IMeta.VswitchCIDRBlock := VswitchCIDRBlock; IMeta.Zone := Zone;
     IMeta.NTPConfigServers := NTPConfigServers;
     IMeta.RoleName := RoleName; IMeta.RamRoleToken := RamRoleToken;
     IMeta.VswitchID := VswitchID |}.
End Methods.
End fakeMetaData.

(** The two SDK client objects built by [NewClientMgr]. The sub-clients
    hold pointers to them: [instance.c] and [routes.client] are the same
    [ecsclient] object, [loadbalancer.c] is the [slbclient] object. *)
Inductive handle : Type := ecsclient | slbclient.

Record InstanceClient : Type := { c : handle }.
Record LoadBalancerClient : Type := { lb_c : handle }.
Record RoutesClient : Type := { client : handle }.

(** [ClientMgr], together with the two client objects its sub-clients
    point to. The [stop] channel is never written to or closed. *)
Record ClientMgr (W : Type) : Type := {
  token : TokenAuth;
  meta : IMetaData W;
  routes : RoutesClient;
  loadbalancer : LoadBalancerClient;
  instance : InstanceClient;
  ecs_object : common.Client;
  slb_object : common.Client
}.
Arguments token {W}. Arguments meta {W}. Arguments routes {W}.
Arguments loadbalancer {W}. Arguments instance {W}.
Arguments ecs_object {W}. Arguments slb_object {W}.

(** What lives outside the manager: the package variable [ROLE_NAME] and
    whether the goroutine [go wait.Until(...)] of the manager is running. *)
Record Runtime : Type := {
  ROLE_NAME : string;
  refreshing : bool
}.

(** [var ROLE_NAME = "KubernetesMasterRole"], no goroutine yet. *)
Definition initialRuntime : Runtime :=
  {| ROLE_NAME := "KubernetesMasterRole"; refreshing := false |}.

Section ClientManager.
Context {W : Type}.

(** Package-level values declared in other files of the package. *)
Variable Global : cfg.Global.
Variable DEFAULT_REGION : string.
Variable KUBERNETES_ALICLOUD_IDENTITY : string.
(** [metadata.NewMetaData(nil)], the live metadata service. *)
Variable liveMetaData : IMetaData W.

Definition NewMetaData : IMetaData W :=
  if nonempty (cfg.Region Global) && nonempty (cfg.VpcID Global)
     && nonempty (cfg.VswitchID Global) && nonempty (cfg.ZoneID Global)
  then fakeMetaData.new Global liveMetaData
  else liveMetaData.

(** Dereference a sub-client's pointer. *)
Definition deref (mgr : ClientMgr W) (h : handle) : common.Client :=
  match h with
  | ecsclient => ecs_object mgr
  | slbclient => slb_object mgr
  end.

Definition Instances (mgr : ClientMgr W) : InstanceClient := instance mgr.
Definition Routes (mgr : ClientMgr W) : RoutesClient := routes mgr.
Definition LoadBalancers (mgr : ClientMgr W) : LoadBalancerClient :=
  loadbalancer mgr.
Definition MetaData (mgr : ClientMgr W) : IMetaData W := meta mgr.

(** Lines 87-108 of [NewClientMgr]: the client handles are built from the
    credential triple of [token] and wired into the manager. *)
Definition assemble (token : TokenAuth) (m : IMetaData W) : ClientMgr W :=
  let '(keyid, sec, tok) := authid token in
  let ecs :=
    common.SetUserAgent KUBERNETES_ALICLOUD_IDENTITY
      (common.NewClientWithSecurityToken keyid sec tok DEFAULT_REGION) in
  let slb :=
    common.SetUserAgent KUBERNETES_ALICLOUD_IDENTITY
      (common.NewClientWithSecurityToken keyid sec tok DEFAULT_REGION) in
  {| token := token;
     meta := m;
     instance := {| c := ecsclient |};
     loadbalancer := {| lb_c := slbclient |};
     routes := {| client := ecsclient |};
     ecs_object := ecs;
     slb_object := slb |}.

(** [NewClientMgr(key, secret)], called in world [w] with the runtime
    [rt]; returns the manager or the error, and the runtime it leaves
    behind. [ROLE_NAME] is overwritten as soon as the role name is
    known, also when the token exchange then fails. *)
Definition NewClientMgr (w : W) (key secret : string) (rt : Runtime)
  : result (ClientMgr W) * Runtime :=
  let token :=
    {| auth := {| metadata.AccessKeyId := key;
                  metadata.AccessKeySecret := secret;
                  metadata.SecurityToken := "" |};
       active := false |} in
  let m := NewMetaData in
  let finish (token : TokenAuth) (rt : Runtime) :=
    let mgr := assemble token m in
    if negb (active token) then (Ok mgr, rt)
    else (Ok mgr, {| ROLE_NAME := ROLE_NAME rt; refreshing := true |}) in
  if String.eqb key "" || String.eqb secret "" then
    match RoleName m w with
    | Err err => (Err err, rt)
    | Ok rolename =>
        let rt := {| ROLE_NAME := rolename; refreshing := refreshing rt |} in
        match RamRoleToken m w (ROLE_NAME rt) with
        | Err err => (Err err, rt)
        | Ok role => finish {| auth := role; active := true |} rt
        end
    end
  else finish token rt.

(** One run of the function handed to [wait.Until], in world [w]: under
    the write lock, fetch a role token; on error log and return; else
    store it and push it into both client objects. *)
Definition refresh (w : W) (rt : Runtime) (mgr : ClientMgr W) : ClientMgr W :=
  match RamRoleToken (meta mgr) w (ROLE_NAME rt) with
  | Err err => mgr
  | Ok role =>
      let push (cl : common.Client) :=
        common.WithAccessKeySecret (metadata.AccessKeySecret role)
          (common.WithAccessKeyId (metadata.AccessKeyId role)
             (common.WithSecurityToken (metadata.SecurityToken role) cl)) in
      {| token := {| auth := role; active := active (token mgr) |};
         meta := meta mgr;
         routes := routes mgr;
         loadbalancer := loadbalancer mgr;
         instance := instance mgr;
         ecs_object := push (ecs_object mgr);
         slb_object := push (slb_object mgr) |}
  end.

(** The manager's life after construction: the only code that writes to
    it is the refresh goroutine, which runs only if it was started. *)
Inductive step (rt : Runtime) : ClientMgr W -> ClientMgr W -> Prop :=
| step_refresh (w : W) (mgr : ClientMgr W) :
    refreshing rt = true -> step rt mgr (refresh w rt mgr).

(** The same as a function: one timer tick per world state. *)
Definition tick (rt : Runtime) (mgr : ClientMgr W) (w : W) : ClientMgr W :=
  if refreshing rt then refresh w rt mgr else mgr.

Definition run (rt : Runtime) (mgr : ClientMgr W) (ws : list W) : ClientMgr W :=
  fold_left (tick rt) ws mgr.

(** Credentials of the handle a sub-client points to. *)
Definition carried (mgr : ClientMgr W) (h : handle) : string * string * string :=
  common.credentials (deref mgr h).

(** The ECS and the SLB client object both hold the credential of the
    token, in the form a handle holds it. *)
Definition in_sync (mgr : ClientMgr W) : Prop :=
  carried mgr ecsclient = signing_form (authid (token mgr)) /\
  carried mgr slbclient = signing_form (authid (token mgr)).

(** What [NewClientMgr] sets up besides the credentials. *)
Definition wiring (mgr : ClientMgr W) : Prop :=
  meta mgr = NewMetaData
  /\ c (Instances mgr) = ecsclient
  /\ client (Routes mgr) = ecsclient
  /\ lb_c (LoadBalancers mgr) = slbclient
  /\ common.regionID (ecs_object mgr) = DEFAULT_REGION
  /\ common.regionID (slb_object mgr) = DEFAULT_REGION
  /\ common.userAgent (ecs_object mgr) = KUBERNETES_ALICLOUD_IDENTITY
  /\ common.userAgent (slb_object mgr) = KUBERNETES_ALICLOUD_IDENTITY.

End ClientManager.

(** ** The SLB client interface and the load-balancer resolver *)

(** The part of [k8s.io/api/core/v1] a service descriptor consists of. *)
Module v1.
Record ObjectMeta : Type := {
  Namespace : string;
  Name : string;
  UID : string;
  Annotations : gmap string string
}.
Record ServiceSpec : Type := { Type_ : string }.
Record LoadBalancerIngress : Type := { IP : string; Hostname : string }.
Record LoadBalancerStatus : Type := { Ingress : list LoadBalancerIngress }.
Record ServiceStatus : Type := { LoadBalancer : LoadBalancerStatus }.
Record Service : Type := {
  Meta : ObjectMeta;
  Spec : ServiceSpec;
  Status : ServiceStatus
}.
End v1.

(** The part of [aliyungo/slb] the test file uses. *)
Module slb.
Module Args.
(** [slb.DescribeLoadBalancersArgs] *)
Record DescribeLoadBalancersArgs : Type := {
  RegionId : string;
  LoadBalancerId : string;
  LoadBalancerName : string
}.
End Args.
Abbreviation DescribeLoadBalancersArgs := Args.DescribeLoadBalancersArgs.

Record BackendServerType : Type := {
  ServerId : string;
  Weight : Z
}.

(** [slb.LoadBalancerType], with the fields [newBaseLoadbalancer] sets
    and the backend-server membership. *)
Record LoadBalancerType : Type := {
  LoadBalancerId : string;
  LoadBalancerName : string;
  LoadBalancerStatus : string;
  Address : string;
  RegionId : string;
  RegionIdAlias : string;
  AddressType : string;
  VSwitchId : string;
  VpcId : string;
  NetworkType : string;
  Bandwidth : Z;
  InternetChargeType : string;
  CreateTime : string;
  CreateTimeStamp : Z;
  BackendServers : list BackendServerType
}.

Definition setLoadBalancerId (id : string) (lb : LoadBalancerType) :=
  {| LoadBalancerId := id; LoadBalancerName := LoadBalancerName lb;
     LoadBalancerStatus := LoadBalancerStatus lb; Address := Address lb;
     RegionId := RegionId lb; RegionIdAlias := RegionIdAlias lb;
     AddressType := AddressType lb; VSwitchId := VSwitchId lb;
     VpcId := VpcId lb; NetworkType := NetworkType lb;
     Bandwidth := Bandwidth lb;
     InternetChargeType := InternetChargeType lb;
     CreateTime := CreateTime lb; CreateTimeStamp := CreateTimeStamp lb;
     BackendServers := BackendServers lb |}.

Definition setLoadBalancerName (name : string) (lb : LoadBalancerType) :=
  {| LoadBalancerId := LoadBalancerId lb; LoadBalancerName := name;
     LoadBalancerStatus := LoadBalancerStatus lb; Address := Address lb;
     RegionId := RegionId lb; RegionIdAlias := RegionIdAlias lb;
     AddressType := AddressType lb; VSwitchId := VSwitchId lb;
     VpcId := VpcId lb; NetworkType := NetworkType lb;
     Bandwidth := Bandwidth lb;
     InternetChargeType := InternetChargeType lb;
     CreateTime := CreateTime lb; CreateTimeStamp := CreateTimeStamp lb;
     BackendServers := BackendServers lb |}.

Definition setBackendServers (bs : list BackendServerType)
    (lb : LoadBalancerType) :=
  {| LoadBalancerId := LoadBalancerId lb;
     LoadBalancerName := LoadBalancerName lb;
     LoadBalancerStatus := LoadBalancerStatus lb; Address := Address lb;
     RegionId := RegionId lb; RegionIdAlias := RegionIdAlias lb;
     AddressType := AddressType lb; VSwitchId := VSwitchId lb;
     VpcId := VpcId lb; NetworkType := NetworkType lb;
     Bandwidth := Bandwidth lb;
     InternetChargeType := InternetChargeType lb;
     CreateTime := CreateTime lb; CreateTimeStamp := CreateTimeStamp lb;
     BackendServers := bs |}.
End slb.

(** [ClientSLBSDK], the interface [LoadBalancerClient.c] is used through
    (the four methods the resolver and the backend reconciliation need).
    [St] is the state of whatever answers the calls: the vendor's records,
    or the variables a test double closes over. A pointer result that may
    be nil is an [option]. *)
Class ClientSLBSDK (St : Type) : Type := {
  DescribeLoadBalancers :
    slb.DescribeLoadBalancersArgs -> St -> result (list slb.LoadBalancerType) * St;
  DescribeLoadBalancerAttribute :
    string -> St -> result (option slb.LoadBalancerType) * St;
  RemoveBackendServers :
    string -> list string -> St -> result (list slb.BackendServerType) * St;
  AddBackendServers :
    string -> list slb.BackendServerType -> St
    -> result (list slb.BackendServerType) * St
}.

(** *** loadbalancer_test.go: the client double *)

Definition LOADBALANCER_ID := "lb-bp1ids9hmq5924m6uk5w1".
Definition LOADBALANCER_NAME := "a594334ad276811e8a62700163e10c02".
Definition LOADBALANCER_ADDRESS := "47.97.241.114".
Definition LOADBALANCER_NETWORK_TYPE := "classic".

(** [newBaseLoadbalancer()]; [now] is [time.Now()]. *)
Definition newBaseLoadbalancer (now : Z) : list slb.LoadBalancerType :=
  [ {| slb.LoadBalancerId := LOADBALANCER_ID;
       slb.LoadBalancerName := LOADBALANCER_NAME;
       slb.LoadBalancerStatus := "active";
       slb.Address := LOADBALANCER_ADDRESS;
       slb.RegionId := "cn-hangzhou";
       slb.RegionIdAlias := "cn-hangzhou";
       slb.AddressType := "internet";
       slb.VSwitchId := "";
       slb.VpcId := "";
       slb.NetworkType := LOADBALANCER_NETWORK_TYPE;
       slb.Bandwidth := 0;
       slb.InternetChargeType := "4";
       slb.CreateTime := "2018-03-14T17:16Z";
       slb.CreateTimeStamp := now;
       slb.BackendServers := [] |} ].

(** [mockClientSLB]: a nil function field is [None]. *)
Record mockClientSLB (St : Type) : Type := {
  describeLoadBalancers :
    option (slb.DescribeLoadBalancersArgs -> St
            -> result (list slb.LoadBalancerType) * St);
  describeLoadBalancerAttribute :
    option (string -> St -> result (option slb.LoadBalancerType) * St);
  removeBackendServers :
    option (string -> list string -> St
            -> result (list slb.BackendServerType) * St);
  addBackendServers :
    option (string -> list slb.BackendServerType -> St
            -> result (list slb.BackendServerType) * St)
}.
Arguments describeLoadBalancers {St}.
Arguments describeLoadBalancerAttribute {St}.
Arguments removeBackendServers {St}.
Arguments addBackendServers {St}.

(** The methods of [*mockClientSLB]: call the field if it is set, else
    answer with the default. *)
Definition mockClient {St : Type} (now : Z) (m : mockClientSLB St)
  : ClientSLBSDK St :=
  {| DescribeLoadBalancers args s :=
       match describeLoadBalancers m with
       | Some f => f args s
       | None => (Ok (newBaseLoadbalancer now), s)
       end;
     DescribeLoadBalancerAttribute loadBalancerId s :=
       match describeLoadBalancerAttribute m with
       | Some f => f loadBalancerId s
       | None => (Ok None, s)
       end;
     RemoveBackendServers loadBalancerId backendServers s :=
       match removeBackendServers m with
       | Some f => f loadBalancerId backendServers s
       | None => (Ok [], s)
       end;
     AddBackendServers loadBalancerId backendServers s :=
       match addBackendServers m with
       | Some f => f loadBalancerId backendServers s
       | None => (Ok [], s)
       end |}.

(** Writing to [base[0]] of an empty slice panics. *)
Definition index_out_of_range {A} : result A :=
  Err "panic: runtime error: index out of range".

(** The double of [TestFindLoadBalancer]. Its state is the slice [base]
    both closures capture; [describeLoadBalancers] overwrites a field of
    [base[0]] and returns the slice. [loadbalancerAttrib] is a helper of
    another test file. *)
Definition TestFindLoadBalancer_mock
    (loadbalancerAttrib : slb.LoadBalancerType -> slb.LoadBalancerType)
  : mockClientSLB (list slb.LoadBalancerType) :=
  {| describeLoadBalancers := Some (fun args base =>
       if nonempty (slb.Args.LoadBalancerId args) then
         match base !! 0%nat with
         | Some b =>
             let base :=
               <[0%nat := slb.setLoadBalancerId (slb.Args.LoadBalancerId args) b]> base in
             (Ok base, base)
         | None => (index_out_of_range, base)
         end
       else if nonempty (slb.Args.LoadBalancerName args) then
         match base !! 0%nat with
         | Some b =>
             let base :=
               <[0%nat := slb.setLoadBalancerName (slb.Args.LoadBalancerName args) b]> base in
             (Ok base, base)
         | None => (index_out_of_range, base)
         end
       else
         (Err ("loadbalancerid or loadbanancername must be specified."
                 +:+ String "010" ""), base));
     describeLoadBalancerAttribute := Some (fun loadBalancerId base =>
       match base !! 0%nat with
       | Some b => (Ok (Some (loadbalancerAttrib b)), base)
       | None => (index_out_of_range, base)
       end);
     removeBackendServers := None;
     addBackendServers := None |}.

(** *** Calls on the client, with a log *)

(** What was asked of the client, in order. *)
Inductive Call : Type :=
| CallDescribeLoadBalancers (args : slb.DescribeLoadBalancersArgs)
| CallDescribeLoadBalancerAttribute (loadBalancerId : string)
| CallRemoveBackendServers (loadBalancerId : string) (backendServers : list string)
| CallAddBackendServers (loadBalancerId : string)
    (backendServers : list slb.BackendServerType).

(** The calls that change the backend-server membership. *)
Definition is_mutation (call : Call) : bool :=
  match call with
  | CallRemoveBackendServers _ _ | CallAddBackendServers _ _ => true
  | _ => false
  end.

Definition mutations (log : list Call) : list Call := List.filter is_mutation log.

(** A computation that talks to the client: it threads the state behind
    the client and the log of calls, and stops at the first error. *)
Definition SLB (St A : Type) : Type :=
  St * list Call -> result A * (St * list Call).

Definition ret {St A} (a : A) : SLB St A := fun σ => (Ok a, σ).
Definition fail {St A} (msg : string) : SLB St A := fun σ => (Err msg, σ).
Definition bind {St A B} (m : SLB St A) (k : A -> SLB St B) : SLB St B :=
  fun σ =>
    match m σ with
    | (Ok a, σ') => k a σ'
    | (Err msg, σ') => (Err msg, σ')
    end.

Declare Scope slb_scope.
Delimit Scope slb_scope with slb.
Notation "'let*' x ':=' m 'in' k" := (bind m (fun x => k))
  (at level 10, x name, m at level 100, k at level 200) : slb_scope.

(** [if len(l) > 0 { m }] *)
Definition unless_empty {St A B} (l : list A) (m : SLB St (list B))
  : SLB St (list B) :=
  match l with
  | [] => ret []
  | _ :: _ => m
  end.

(** Issue one call: log it, let the client answer. *)
Definition call {St A} (what : Call) (f : St -> result A * St) : SLB St A :=
  fun σ => let '(r, s) := f (fst σ) in (r, (s, (snd σ ++ [what])%list)).

(** The log after one more describe call. *)
Definition asked (log : list Call) (args : slb.DescribeLoadBalancersArgs)
  : list Call := (log ++ [CallDescribeLoadBalancers args])%list.

Section Resolver.
Context {St : Type} {sdk : ClientSLBSDK St}.

(** Package-level values declared in other files of the package, and
    the naming convention of [cloudprovider.GetLoadBalancerName]. *)
Variable DEFAULT_REGION : string.
Variable ServiceAnnotationLoadBalancerId : string.
Variable GetLoadBalancerName : v1.Service -> string.

(** Modelled from the spec: [loadBalancerDomain], called by the test but
    defined in loadbalancer.go, which is not among the sources. The
    hostname has the form service-name.loadbalancer-id.region. *)
Definition loadBalancerDomain (name id region : string) : string :=
  Join "." [name; id; region].

(** Modelled from the spec: reading a hostname of that form back. A
    hostname of three dot-separated pieces encodes its second piece. *)
Definition parseLoadBalancerDomain (hostname : string) : option string :=
  match Split "." hostname with
  | [_; id; _] => Some id
  | _ => None
  end.

(** Modelled from the spec: the load-balancer ID recorded in the ingress
    status of the service, if an entry carries a hostname encoding one. *)
Fixpoint fromIngress (ingress : list v1.LoadBalancerIngress) : option string :=
  match ingress with
  | [] => None
  | entry :: rest =>
      match parseLoadBalancerDomain (v1.Hostname entry) with
      | Some id => Some id
      | None => fromIngress rest
      end
  end.

(** Modelled from the spec: the same, for a service. *)
Definition fromLoadBalancerStatus (service : v1.Service) : option string :=
  fromIngress (v1.Ingress (v1.LoadBalancer (v1.Status service))).

(** Modelled from the spec: the explicit load-balancer-ID annotation. *)
Definition explicitLoadBalancerId (service : v1.Service) : option string :=
  v1.Annotations (v1.Meta service) !! ServiceAnnotationLoadBalancerId.

(** Modelled from the spec: the request that fetches by ID. *)
Definition byId (id : string) : slb.DescribeLoadBalancersArgs :=
  {| slb.Args.RegionId := DEFAULT_REGION;
     slb.Args.LoadBalancerId := id;
     slb.Args.LoadBalancerName := "" |}.

(** Modelled from the spec: the request that looks up by name. *)
Definition byName (name : string) : slb.DescribeLoadBalancersArgs :=
  {| slb.Args.RegionId := DEFAULT_REGION;
     slb.Args.LoadBalancerId := "";
     slb.Args.LoadBalancerName := name |}.

(** Modelled from the spec: the error of an ID that resolves to nothing. *)
Definition not_found (id : string) : string :=
  "alicloud: can not find loadbalancer with id " +:+ id.

(** Modelled from the spec: fetch by ID. A fetch that fails, by an API
    error or by finding nothing, is an error. *)
Definition findLoadBalancerByID (id : string)
  : SLB St (bool * option slb.LoadBalancerType) :=
  (let* lbs := call (CallDescribeLoadBalancers (byId id))
                    (DescribeLoadBalancers (byId id)) in
   match lbs with
   | [] => fail (not_found id)
   | lb :: _ => ret (true, Some lb)
   end)%slb.

(** Modelled from the spec: look up by name. Zero matches is not-found,
    without an error. *)
Definition findLoadBalancerByName (name : string)
  : SLB St (bool * option slb.LoadBalancerType) :=
  (let* lbs := call (CallDescribeLoadBalancers (byName name))
                    (DescribeLoadBalancers (byName name)) in
   match lbs with
   | [] => ret (false, None)
   | lb :: _ => ret (true, Some lb)
   end)%slb.

(** Modelled from the spec: [findLoadBalancer] of loadbalancer.go, which
    is not among the sources. The explicit annotation first, else the ID
    in the ingress status, else the derived name. *)
Definition findLoadBalancer (service : v1.Service)
  : SLB St (bool * option slb.LoadBalancerType) :=
  match explicitLoadBalancerId service with
  | Some id => findLoadBalancerByID id
  | None =>
      match fromLoadBalancerStatus service with
      | Some id => findLoadBalancerByID id
      | None => findLoadBalancerByName (GetLoadBalancerName service)
      end
  end.

(** Modelled from the spec: the backend-membership step of the
    reconciler (loadbalancer.go, not among the sources). It fetches the
    current membership, diffs it against the node identifiers by
    [ServerId], adds the missing nodes and removes the extras; a call is
    only made when there is something to add or to remove, and a failed
    call aborts the rest. *)
Definition UpdateBackendServers (weight : Z) (loadBalancerId : string)
    (nodes : list string) : SLB St unit :=
  (let* found := call (CallDescribeLoadBalancerAttribute loadBalancerId)
                      (DescribeLoadBalancerAttribute loadBalancerId) in
   match found with
   | None => fail (not_found loadBalancerId)
   | Some lb =>
       let current := slb.ServerId <$> slb.BackendServers lb in
       let additions :=
         (fun id => {| slb.ServerId := id; slb.Weight := weight |})
           <$> filter (fun id => id ∉ current) nodes in
       let deletions := filter (fun id => id ∉ nodes) current in
       let* added :=
         unless_empty additions
           (call (CallAddBackendServers loadBalancerId additions)
                 (AddBackendServers loadBalancerId additions)) in
       let* removed :=
         unless_empty deletions
           (call (CallRemoveBackendServers loadBalancerId deletions)
                 (RemoveBackendServers loadBalancerId deletions)) in
       ret tt
   end)%slb.

End Resolver.

(** *** A vendor behind the interface *)

(** Modelled from the spec: the vendor API, which the spec takes as an
    assumed capability and the sources only reach through [ClientSLBSDK]:
    the records the vendor stores, listed with the filters of the request,
    described by ID, and their backend-server membership edited in place. *)
Module vendor.
(** Modelled from the spec: a record passes the filters a request sets. *)
Definition matches (args : slb.DescribeLoadBalancersArgs)
    (lb : slb.LoadBalancerType) : bool :=
  (negb (nonempty (slb.Args.LoadBalancerId args))
   || String.eqb (slb.LoadBalancerId lb) (slb.Args.LoadBalancerId args))
  && (negb (nonempty (slb.Args.LoadBalancerName args))
      || String.eqb (slb.LoadBalancerName lb) (slb.Args.LoadBalancerName args)).

(** Modelled from the spec: the record has this ID. *)
Definition has_id (id : string) (lb : slb.LoadBalancerType) : bool :=
  String.eqb (slb.LoadBalancerId lb) id.

(** Modelled from the spec: the vendor's answer for an unknown ID. *)
Definition missing {A} : result A := Err "InvalidLoadBalancerId.NotFound".

(** Modelled from the spec: change the membership of the records with
    this ID. *)
Definition edit (id : string)
    (f : list slb.BackendServerType -> list slb.BackendServerType)
    (records : list slb.LoadBalancerType) : list slb.LoadBalancerType :=
  List.map (fun lb =>
              if has_id id lb
              then slb.setBackendServers (f (slb.BackendServers lb)) lb
              else lb) records.

(** Modelled from the spec: the four calls, answered from the records. *)
Definition client : ClientSLBSDK (list slb.LoadBalancerType) :=
  {| DescribeLoadBalancers args records :=
       (Ok (List.filter (matches args) records), records);
     DescribeLoadBalancerAttribute id records :=
       match List.find (has_id id) records with
       | Some lb => (Ok (Some lb), records)
       | None => (missing, records)
       end;
     RemoveBackendServers id ids records :=
       match List.find (has_id id) records with
       | Some lb =>
           let keep := filter (fun b => slb.ServerId b ∉ ids) in
           (Ok (keep (slb.BackendServers lb)), edit id keep records)
       | None => (missing, records)
       end;
     AddBackendServers id servers records :=
       match List.find (has_id id) records with
       | Some lb =>
           let grow := fun bs => (bs ++ servers)%list in
           (Ok (grow (slb.BackendServers lb)), edit id grow records)
       | None => (missing, records)
       end |}.

(** Modelled from the spec: the node identifiers registered with load
    balancer [id]. *)
Definition backends (records : list slb.LoadBalancerType) (id : string)
  : list string :=
  match List.find (has_id id) records with
  | Some lb => slb.ServerId <$> slb.BackendServers lb
  | None => []
  end.
End vendor.

(** Modelled from the spec: what the backend reconciliation relies on
    from whatever is behind the interface: [members s id] is the membership of load balancer [id] in
    state [s]; describing reports it and leaves it alone, a successful add
    or remove edits it as asked. Calls may fail in any state. *)
Class BackendMembership {St : Type} (sdk : ClientSLBSDK St) : Type := {
  members : St -> string -> list string;
  describe_members : forall id s found s',
    DescribeLoadBalancerAttribute id s = (found, s') ->
    members s' id = members s id /\
    forall lb, found = Ok (Some lb) ->
      forall x, x ∈ slb.ServerId <$> slb.BackendServers lb <-> x ∈ members s id;
  add_members : forall id servers s added s',
    AddBackendServers id servers s = (Ok added, s') ->
    forall x, x ∈ members s' id <->
              x ∈ members s id \/ x ∈ slb.ServerId <$> servers;
  remove_members : forall id ids s removed s',
    RemoveBackendServers id ids s = (Ok removed, s') ->
    forall x, x ∈ members s' id <-> x ∈ members s id /\ x ∉ ids
}.

(** *** Values for the scenarios *)

(** The naming convention of Kubernetes, [cloudprovider.GetLoadBalancerName]:
    the letter a followed by the UID without its dashes, cut to 32 bytes. *)
Module cloudprovider.
(** [strings.Replace(s, "-", "", -1)] *)
Fixpoint dropDashes (s : string) : string :=
  match s with
  | EmptyString => EmptyString
  | String ch s' =>
      if Ascii.eqb ch "-" then dropDashes s' else String ch (dropDashes s')
  end.

Definition GetLoadBalancerName (service : v1.Service) : string :=
  let ret := dropDashes ("a" +:+ v1.UID (v1.Meta service)) in
  if Nat.ltb 32 (String.length ret) then String.substring 0 32 ret else ret.
End cloudprovider.

(** The service of [TestFindLoadBalancer]. *)
Definition service_test (annotations : gmap string string)
    (ingress : list v1.LoadBalancerIngress) : v1.Service :=
  {| v1.Meta := {| v1.Namespace := "default";
                   v1.Name := "service-test";
                   v1.UID := "abcdefghigklmnopqrstu";
                   v1.Annotations := annotations |};
     v1.Spec := {| v1.Type_ := "LoadBalancer" |};
     v1.Status := {| v1.LoadBalancer := {| v1.Ingress := ingress |} |} |}.

(** A record of the vendor with the given identity. *)
Definition record (id name : string) : slb.LoadBalancerType :=
  {| slb.LoadBalancerId := id;
     slb.LoadBalancerName := name;
     slb.LoadBalancerStatus := "active";
     slb.Address := LOADBALANCER_ADDRESS;
     slb.RegionId := "cn-hangzhou";
     slb.RegionIdAlias := "cn-hangzhou";
     slb.AddressType := "internet";
     slb.VSwitchId := "";
     slb.VpcId := "";
     slb.NetworkType := LOADBALANCER_NETWORK_TYPE;
     slb.Bandwidth := 0;
     slb.InternetChargeType := "4";
     slb.CreateTime := "2018-03-14T17:16Z";
     slb.CreateTimeStamp := 0;
     slb.BackendServers := [] |}.

(** A metadata service that knows one role. The world is the token it
    would hand out at the moment, or [None] while it cannot be reached. *)
Definition roleMetaData (rolename : string)
  : IMetaData (option metadata.RoleAuth) :=
  let na {A} : option metadata.RoleAuth -> result A :=
    fun _ => Err "not found" in
  {| IMeta.HostName := na; IMeta.ImageID := na; IMeta.InstanceID := na;
     IMeta.Mac := na; IMeta.NetworkType := na; IMeta.OwnerAccountID := na;
     IMeta.PrivateIPv4 := na; IMeta.Region := fun _ => Ok "region-test";
     IMeta.SerialNumber := na; IMeta.SourceAddress := na;
     IMeta.VpcCIDRBlock := na; IMeta.VpcID := na;
     IMeta.VswitchCIDRBlock := na; IMeta.Zone := na;
     IMeta.NTPConfigServers := na;
     IMeta.RoleName := fun w =>
       match w with Some _ => Ok rolename | None => Err "timeout" end;
     IMeta.RamRoleToken := fun w name =>
       match w with
       | Some role =>
           if String.eqb name rolename then Ok role else Err "not found"
       | None => Err "timeout"
       end;
     IMeta.VswitchID := na |}.

Definition noOverrides : cfg.Global :=
  {| cfg.Region := ""; cfg.VpcID := ""; cfg.VswitchID := ""; cfg.ZoneID := "" |}.

(** A cloud-config with one vswitch per zone. *)
Definition zonedOverrides : cfg.Global :=
  {| cfg.Region := "cn-hangzhou";
     cfg.VpcID := "vpc-1";
     cfg.VswitchID := "cn-hangzhou-a:vsw-1,cn-hangzhou-b:vsw-2";
     cfg.ZoneID := "cn-hangzhou-b" |}.

Definition firstToken : metadata.RoleAuth :=
  {| metadata.AccessKeyId := "STS.one";
     metadata.AccessKeySecret := "secret-one";
     metadata.SecurityToken := "token-one" |}.

Definition secondToken : metadata.RoleAuth :=
  {| metadata.AccessKeyId := "STS.two";
     metadata.AccessKeySecret := "secret-two";
     metadata.SecurityToken := "token-two" |}.

(** The manager of a node that has the role [KubernetesWorkerRole]. *)
Definition roleManager : ClientMgr (option metadata.RoleAuth) :=
  assemble "cn-hangzhou" "kubernetes.alicloud"
    {| auth := firstToken; active := true |}
    (NewMetaData noOverrides (roleMetaData "KubernetesWorkerRole")).

Definition roleRuntime : Runtime :=
  {| ROLE_NAME := "KubernetesWorkerRole"; refreshing := true |}.

Definition ANNOTATION_LOADBALANCER_ID : string :=
  "service.beta.kubernetes.io/alicloud-loadbalancer-id".

(** A service that carries all three identity sources, each pointing to a
    different record of [threeRecords]. *)
Definition conflictingService : v1.Service :=
  service_test {[ ANNOTATION_LOADBALANCER_ID := "lb-annotated" ]}
    [ {| v1.IP := LOADBALANCER_ADDRESS;
         v1.Hostname := loadBalancerDomain "service-test" "lb-ingress"
                          "cn-hangzhou" |} ].

Definition threeRecords : list slb.LoadBalancerType :=
  [ record "lb-named" "aabcdefghigklmnopqrstu";
    record "lb-ingress" "other-name";
    record "lb-annotated" "another-name" ].

(** A load balancer with one stale backend server. *)
Definition staleRecords : list slb.LoadBalancerType :=
  [ slb.setBackendServers [ {| slb.ServerId := "i-old"; slb.Weight := 100 |} ]
      (record "lb-1" "aabcdefghigklmnopqrstu") ].

(** A metadata service that names a role but refuses the token exchange. *)
Definition tokenlessMetaData (rolename : string) : IMetaData unit :=
  let na {A} : unit -> result A := fun _ => Err "not found" in
  {| IMeta.HostName := na; IMeta.ImageID := na; IMeta.InstanceID := na;
     IMeta.Mac := na; IMeta.NetworkType := na; IMeta.OwnerAccountID := na;
     IMeta.PrivateIPv4 := na; IMeta.Region := na;
     IMeta.SerialNumber := na; IMeta.SourceAddress := na;
     IMeta.VpcCIDRBlock := na; IMeta.VpcID := na;
     IMeta.VswitchCIDRBlock := na; IMeta.Zone := na;
     IMeta.NTPConfigServers := na;
     IMeta.RoleName := fun _ => Ok rolename;
     IMeta.RamRoleToken := fun _ _ => Err "EntityNotExist.Role";
     IMeta.VswitchID := na |}.

(** A cloud-config that sets a region but no zone. *)
Definition partialOverrides : cfg.Global :=
  {| cfg.Region := "cn-beijing"; cfg.VpcID := "vpc-1";
     cfg.VswitchID := "vsw-1"; cfg.ZoneID := "" |}.

(** * Properties *)

(** ** Splitting and joining *)

Section GoStringsFacts.
Variable sep : ascii.

Lemma Split_nonempty s : Split sep s <> [].
Proof.
  destruct s as [|ch s]; simpl; [discriminate|].
  destruct (Ascii.eqb ch sep); [discriminate|].
  destruct (Split sep s); discriminate.
Qed.

Lemma Split_length s : length (Split sep s) = S (Count sep s).
Proof.
  induction s as [|ch s IH]; simpl; [reflexivity|].
  destruct (Ascii.eqb ch sep); simpl; [now rewrite IH|].
  destruct (Split sep s) eqn:E; simpl in *; [discriminate|exact IH].
Qed.

(** A piece holds no more of any byte than the whole string does. *)
Lemma Split_pieces_le (b : ascii) s p :
  In p (Split sep s) -> Count b p <= Count b s.
Proof.
  revert p; induction s as [|ch s IH]; simpl; intros p Hin.
  - destruct Hin as [<-|[]]; simpl; lia.
  - destruct (Ascii.eqb ch sep) eqn:Ec.
    + destruct Hin as [<-|Hin]; simpl; [lia|].
      specialize (IH _ Hin). lia.
    + destruct (Split sep s) as [|q qs] eqn:E.
      * destruct Hin as [<-|[]]. simpl. lia.
      * destruct Hin as [<-|Hin].
        -- simpl. specialize (IH q (or_introl eq_refl)). lia.
        -- specialize (IH p (or_intror Hin)). lia.
Qed.

(** No piece contains the separator. *)
Lemma Split_pieces_free s p : In p (Split sep s) -> Count sep p = 0.
Proof.
  revert p; induction s as [|ch s IH]; simpl; intros p Hin.
  - destruct Hin as [<-|[]]; reflexivity.
  - destruct (Ascii.eqb ch sep) eqn:Ec.
    + destruct Hin as [<-|Hin]; [reflexivity|auto].
    + destruct (Split sep s) as [|q qs] eqn:E.
      * destruct Hin as [<-|[]]. simpl. now rewrite Ec.
      * destruct Hin as [<-|Hin].
        -- simpl. rewrite Ec. apply IH. now left.
        -- apply IH. now right.
Qed.

Lemma Split_free s : Count sep s = 0 -> Split sep s = [s].
Proof.
  induction s as [|ch s IH]; simpl; [reflexivity|].
  destruct (Ascii.eqb ch sep); [discriminate|].
  intros H. now rewrite (IH H).
Qed.

Lemma Split_app s t :
  Count sep s = 0 -> Split sep (s +:+ String sep t) = s :: Split sep t.
Proof.
  induction s as [|ch s IH]; simpl.
  - now rewrite Ascii.eqb_refl.
  - destruct (Ascii.eqb ch sep); [discriminate|].
    intros H. now rewrite (IH H).
Qed.

Lemma Count_app s t : Count sep (s +:+ t) = Count sep s + Count sep t.
Proof.
  induction s as [|ch s IH]; simpl; [reflexivity|].
  rewrite IH. lia.
Qed.
End GoStringsFacts.

(** ** fakeMetaData.VswitchID *)

Section VswitchIDFacts.
Context {W : Type}.
Variable Global : cfg.Global.
Variable base : IMetaData W.

Let format_error : result string :=
  Err ("cloud-config vswitch format error: " +:+ cfg.VswitchID Global).

(** The first piece of an entry with a colon is never the entry. *)
Lemma first_piece_differs entry :
  length (Split ":" entry) = 2 ->
  String.eqb (nth 0 (Split ":" entry) "") entry = false.
Proof.
  intros Hlen. apply String.eqb_neq. intros Heq.
  assert (Hin : In (nth 0 (Split ":" entry) "") (Split ":" entry))
    by (apply nth_In; lia).
  apply Split_pieces_free in Hin. rewrite Heq in Hin.
  rewrite Split_length in Hlen. lia.
Qed.

(** The loop never returns a vswitch: it ends or reports a bad entry. *)
Lemma VswitchID_range_well_formed zone zlist :
  Forall (fun entry => Count ":" entry = 1) zlist ->
  fakeMetaData.VswitchID_range Global zone zlist = None.
Proof.
  intros Hall. revert zone.
  induction Hall as [|entry rest Hentry _ IH]; intros zone; simpl;
    [reflexivity|].
  assert (Hlen : length (Split ":" entry) = 2)
    by (rewrite Split_length; lia).
  rewrite Hlen. simpl. rewrite first_piece_differs by exact Hlen.
  apply IH.
Qed.

Lemma VswitchID_range_malformed zone zlist :
  Exists (fun entry => Count ":" entry <> 1) zlist ->
  fakeMetaData.VswitchID_range Global zone zlist = Some format_error.
Proof.
  revert zone. induction zlist as [|entry rest IH]; intros zone Hex.
  - inversion Hex.
  - simpl. destruct (Nat.eqb (length (Split ":" entry)) 2) eqn:Hlen; simpl.
    + apply Nat.eqb_eq in Hlen. rewrite first_piece_differs by exact Hlen.
      apply IH. inversion Hex as [? ? Hbad|]; subst; [|assumption].
      rewrite Split_length in Hlen. lia.
    + reflexivity.
Qed.

(** C10. With a vswitch configuration of several comma-separated entries
    and a zone that can be determined, [VswitchID] never picks the
    vswitch of an entry: if every entry has exactly one colon it returns
    the whole configuration string, which is the vswitch part of no
    entry; if some entry has not, it returns the format error. *)
Theorem VswitchID_never_selects (w : W) (zone : string) :
  1 <= Count "," (cfg.VswitchID Global) ->
  fakeMetaData.Zone Global base w = Ok zone ->
  (Forall (fun entry => Count ":" entry = 1)
          (Split "," (cfg.VswitchID Global)) ->
     fakeMetaData.VswitchID Global base w = Ok (cfg.VswitchID Global) /\
     forall entry, In entry (Split "," (cfg.VswitchID Global)) ->
       fakeMetaData.VswitchID Global base w
         <> Ok (nth 1 (Split ":" entry) ""))
  /\ (Exists (fun entry => Count ":" entry <> 1)
             (Split "," (cfg.VswitchID Global)) ->
      fakeMetaData.VswitchID Global base w = format_error).
Proof.
  intros Hcomma Hzone.
  assert (Hmany : Nat.eqb (length (Split "," (cfg.VswitchID Global))) 1 = false).
  { apply Nat.eqb_neq. rewrite Split_length. lia. }
  split.
  - intros Hall.
    assert (Hret : fakeMetaData.VswitchID Global base w
                   = Ok (cfg.VswitchID Global)).
    { unfold fakeMetaData.VswitchID. rewrite Hmany, Hzone.
      now rewrite VswitchID_range_well_formed. }
    split; [exact Hret|].
    intros entry Hin. rewrite Hret. intros Heq. injection Heq as Heq.
    assert (Hlen : length (Split ":" entry) = 2).
    { rewrite Split_length.
      rewrite Forall_forall in Hall. rewrite (Hall entry); [lia|].
      now apply list_elem_of_In. }
    assert (Hpiece : In (nth 1 (Split ":" entry) "") (Split ":" entry))
      by (apply nth_In; lia).
    apply (Split_pieces_le ":" ",") in Hpiece.
    apply Split_pieces_free in Hin.
    rewrite <- Heq in Hpiece. lia.
  - intros Hbad. unfold fakeMetaData.VswitchID. rewrite Hmany, Hzone.
    now rewrite VswitchID_range_malformed.
Qed.
End VswitchIDFacts.

(** ** The client manager and its credentials *)

Section ClientManagerFacts.
Context {W : Type}.
Variable Global : cfg.Global.
Variable DEFAULT_REGION : string.
Variable KUBERNETES_ALICLOUD_IDENTITY : string.
Variable liveMetaData : IMetaData W.

Local Abbreviation NewClientMgr_ :=
  (NewClientMgr Global DEFAULT_REGION KUBERNETES_ALICLOUD_IDENTITY liveMetaData).
Local Abbreviation NewMetaData_ := (NewMetaData Global liveMetaData).
Local Abbreviation assemble_ :=
  (assemble (W:=W) DEFAULT_REGION KUBERNETES_ALICLOUD_IDENTITY).

Lemma assemble_token tok m : token (assemble_ tok m) = tok.
Proof. unfold assemble. destruct (authid tok) as [[? ?] ?]. reflexivity. Qed.

Lemma assemble_in_sync tok m : in_sync (assemble_ tok m).
Proof.
  unfold in_sync, carried, assemble.
  destruct tok as [[k s t] a]. simpl. auto.
Qed.

(** What a successful construction returns. *)
Lemma NewClientMgr_inv w key secret rt mgr rt' :
  NewClientMgr_ w key secret rt = (Ok mgr, rt') ->
  (String.eqb key "" || String.eqb secret "" = false /\
   rt' = rt /\
   mgr = assemble_
           {| auth := {| metadata.AccessKeyId := key;
                         metadata.AccessKeySecret := secret;
                         metadata.SecurityToken := "" |};
              active := false |} NewMetaData_)
  \/ (String.eqb key "" || String.eqb secret "" = true /\
      exists rolename role,
        RoleName NewMetaData_ w = Ok rolename /\
        RamRoleToken NewMetaData_ w rolename = Ok role /\
        rt' = {| ROLE_NAME := rolename; refreshing := true |} /\
        mgr = assemble_ {| auth := role; active := true |} NewMetaData_).
Proof.
  unfold NewClientMgr.
  destruct (String.eqb key "" || String.eqb secret "") eqn:Hmode.
  - destruct (RoleName NewMetaData_ w) as [rolename|] eqn:Hname;
      [|discriminate]. simpl.
    destruct (RamRoleToken NewMetaData_ w rolename) as [role|] eqn:Hrole;
      [|discriminate]. simpl.
    intros [= <- <-]. right. split; [reflexivity|].
    exists rolename, role. auto.
  - simpl. intros [= <- <-]. left. auto.
Qed.

Lemma refresh_active (w : W) rt (mgr : ClientMgr W) :
  active (token (refresh w rt mgr)) = active (token mgr).
Proof.
  unfold refresh. now destruct (RamRoleToken (meta mgr) w (ROLE_NAME rt)).
Qed.

Lemma refresh_in_sync (w : W) rt (mgr : ClientMgr W) : in_sync mgr -> in_sync (refresh w rt mgr).
Proof.
  intros Hsync. unfold refresh.
  destruct (RamRoleToken (meta mgr) w (ROLE_NAME rt)) as [role|]; [|exact Hsync].
  unfold in_sync, carried, deref. simpl. auto.
Qed.

(** A run of timer ticks is a sequence of steps. *)
Lemma run_steps rt (mgr : ClientMgr W) (ws : list W) : rtc (step rt) mgr (run rt mgr ws).
Proof.
  revert mgr. induction ws as [|w ws IH]; intros mgr; simpl; [reflexivity|].
  unfold run in *. simpl. unfold tick at 2.
  destruct (refreshing rt) eqn:Hon; [|apply IH].
  eapply rtc_l; [|apply IH]. now constructor.
Qed.

(** C5. A constructed manager is in exactly one credential mode, decided
    by whether key and secret are both given: explicit (inactive token
    holding the key, the secret and an empty security token) or
    role-derived (active token holding the role token the metadata
    service returned for the role name it returned); and no step of the
    manager's life changes the mode. *)
Theorem NewClientMgr_credential_mode w key secret rt mgr rt' :
  NewClientMgr_ w key secret rt = (Ok mgr, rt') ->
  active (token mgr) = negb (nonempty key && nonempty secret)
  /\ (active (token mgr) = false -> authid (token mgr) = (key, secret, ""))
  /\ (active (token mgr) = true ->
      exists rolename,
        RoleName NewMetaData_ w = Ok rolename /\
        RamRoleToken NewMetaData_ w rolename = Ok (auth (token mgr)))
  /\ (forall mgr', rtc (step rt') mgr mgr' ->
      active (token mgr') = active (token mgr)).
Proof.
  intros Hnew.
  assert (Hmode : negb (nonempty key && nonempty secret)
                  = String.eqb key "" || String.eqb secret "").
  { unfold nonempty. now destruct (String.eqb key ""), (String.eqb secret ""). }
  rewrite Hmode.
  split; [|split; [|split]].
  - destruct (NewClientMgr_inv _ _ _ _ _ _ Hnew)
      as [(-> & _ & ->)|(-> & rolename & role & _ & _ & _ & ->)];
      now rewrite assemble_token.
  - destruct (NewClientMgr_inv _ _ _ _ _ _ Hnew)
      as [(_ & _ & ->)|(_ & rolename & role & _ & _ & _ & ->)];
      rewrite assemble_token; simpl; [reflexivity|discriminate].
  - destruct (NewClientMgr_inv _ _ _ _ _ _ Hnew)
      as [(_ & _ & ->)|(_ & rolename & role & Hname & Hrole & _ & ->)];
      rewrite assemble_token; simpl; [discriminate|].
    intros _. exists rolename. auto.
  - intros mgr' Hreach. clear Hnew.
    induction Hreach as [|x y z Hstep _ IH]; [reflexivity|].
    destruct Hstep. rewrite IH. apply refresh_active.
Qed.

(** C6. A refresh whose token fetch fails changes nothing: the manager is
    the same afterwards, so the stored credential and the credentials of
    the ECS and SLB handles are the old ones; the refresh task stays
    enabled, and a later fetch that succeeds installs its token. *)
Theorem refresh_failure_keeps_credentials (w : W) rt (mgr : ClientMgr W) msg :
  RamRoleToken (meta mgr) w (ROLE_NAME rt) = Err msg ->
  refresh w rt mgr = mgr
  /\ auth (token (refresh w rt mgr)) = auth (token mgr)
  /\ carried (refresh w rt mgr) ecsclient = carried mgr ecsclient
  /\ carried (refresh w rt mgr) slbclient = carried mgr slbclient
  /\ (refreshing rt = true ->
      forall w', step rt (refresh w rt mgr) (refresh w' rt (refresh w rt mgr)))
  /\ (forall w' role,
        RamRoleToken (meta mgr) w' (ROLE_NAME rt) = Ok role ->
        auth (token (refresh w' rt (refresh w rt mgr))) = role).
Proof.
  intros Hfail.
  assert (Hsame : refresh w rt mgr = mgr) by (unfold refresh; now rewrite Hfail).
  rewrite Hsame. do 4 (split; [reflexivity|]). split.
  - intros Hon w'. now constructor.
  - intros w' role Hok. unfold refresh. now rewrite Hok.
Qed.

(** C7, as amended. After a successful refresh the stored credential is
    the fetched role token, and the ECS and SLB handles hold its
    access-key ID and its security token and, as their secret, its secret
    followed by [&]; this agreement of both handles with the token is
    kept by every step, and holds in every state a constructed manager
    reaches. *)
Theorem credential_propagation rt :
  (forall (w : W) (mgr : ClientMgr W) role,
      RamRoleToken (meta mgr) w (ROLE_NAME rt) = Ok role ->
      auth (token (refresh w rt mgr)) = role
      /\ carried (refresh w rt mgr) ecsclient = signing_form (triple role)
      /\ carried (refresh w rt mgr) slbclient = signing_form (triple role))
  /\ (forall mgr mgr' : ClientMgr W,
        in_sync mgr -> step rt mgr mgr' -> in_sync mgr')
  /\ (forall w key secret rt0 mgr,
        NewClientMgr_ w key secret rt0 = (Ok mgr, rt) ->
        forall mgr', rtc (step rt) mgr mgr' -> in_sync mgr').
Proof.
  assert (Hstep : forall mgr mgr' : ClientMgr W,
             in_sync mgr -> step rt mgr mgr' -> in_sync mgr').
  { intros mgr mgr' Hsync Hst. destruct Hst. now apply refresh_in_sync. }
  split; [|split; [exact Hstep|]].
  - intros w mgr role Hok. unfold refresh. rewrite Hok.
    unfold carried, common.credentials. simpl. auto.
  - intros w key secret rt0 mgr Hnew mgr' Hreach.
    assert (Hinit : in_sync mgr).
    { destruct (NewClientMgr_inv _ _ _ _ _ _ Hnew)
        as [(_ & _ & ->)|(_ & rolename & role & _ & _ & _ & ->)];
        apply assemble_in_sync. }
    clear Hnew. induction Hreach as [|x y z Hxy _ IH]; [exact Hinit|].
    apply IH. eapply Hstep; eassumption.
Qed.

(** C8. With key and secret both given the constructor succeeds without
    asking the metadata service, starts no refresh task, and no step is
    ever possible: the manager stays as built and [authid] keeps
    returning the key, the secret and the empty token. *)
Theorem explicit_mode_terminal w key secret rt :
  key <> "" -> secret <> "" -> refreshing rt = false ->
  exists mgr,
    NewClientMgr_ w key secret rt = (Ok mgr, rt)
    /\ (forall mgr', ~ step rt mgr mgr')
    /\ (forall mgr', rtc (step rt) mgr mgr' ->
        mgr' = mgr /\ authid (token mgr') = (key, secret, ""))
    /\ (forall ws, authid (token (run rt mgr ws)) = (key, secret, "")).
Proof.
  intros Hkey Hsecret Hoff.
  apply String.eqb_neq in Hkey, Hsecret.
  exists (assemble_
            {| auth := {| metadata.AccessKeyId := key;
                          metadata.AccessKeySecret := secret;
                          metadata.SecurityToken := "" |};
               active := false |} NewMetaData_).
  split; [|split; [|split]].
  - unfold NewClientMgr. rewrite Hkey, Hsecret. simpl. reflexivity.
  - intros mgr' Hstep. inversion Hstep. congruence.
  - intros mgr' Hreach.
    inversion Hreach as [|x y z Hstep _]; subst.
    + now rewrite assemble_token.
    + inversion Hstep. congruence.
  - intros ws.
    assert (Hrun : forall m, run rt m ws = m).
    { induction ws as [|w' ws IH]; intros m; [reflexivity|].
      unfold run in *. simpl. unfold tick at 2. rewrite Hoff. apply IH. }
    rewrite Hrun, assemble_token. reflexivity.
Qed.
End ClientManagerFacts.

(** ** The load-balancer resolver *)

Section ResolverFacts.
Context {St : Type} {sdk : ClientSLBSDK St}.
Variable DEFAULT_REGION : string.
Variable ServiceAnnotationLoadBalancerId : string.
Variable GetLoadBalancerName : v1.Service -> string.

Local Abbreviation byId_ := (byId DEFAULT_REGION).
Local Abbreviation byName_ := (byName DEFAULT_REGION).
Local Abbreviation findLoadBalancerByID_ :=
  (findLoadBalancerByID (sdk:=sdk) DEFAULT_REGION).
Local Abbreviation findLoadBalancerByName_ :=
  (findLoadBalancerByName (sdk:=sdk) DEFAULT_REGION).
Local Abbreviation explicitLoadBalancerId_ :=
  (explicitLoadBalancerId ServiceAnnotationLoadBalancerId).
Local Abbreviation findLoadBalancer_ :=
  (findLoadBalancer (sdk:=sdk) DEFAULT_REGION ServiceAnnotationLoadBalancerId
     GetLoadBalancerName).

(** A fetch by ID is one describe call; what it returns decides. *)
Lemma findLoadBalancerByID_eq id s log :
  findLoadBalancerByID_ id (s, log) =
  match DescribeLoadBalancers (byId_ id) s with
  | (Ok [], s') => (Err (not_found id), (s', asked log (byId_ id)))
  | (Ok (lb :: _), s') => (Ok (true, Some lb), (s', asked log (byId_ id)))
  | (Err msg, s') => (Err msg, (s', asked log (byId_ id)))
  end.
Proof.
  unfold findLoadBalancerByID, bind, call, asked. simpl.
  destruct (DescribeLoadBalancers (byId_ id) s) as [[[|lb lbs]|msg] s'];
    reflexivity.
Qed.

Lemma findLoadBalancerByName_eq name s log :
  findLoadBalancerByName_ name (s, log) =
  match DescribeLoadBalancers (byName_ name) s with
  | (Ok [], s') => (Ok (false, None), (s', asked log (byName_ name)))
  | (Ok (lb :: _), s') => (Ok (true, Some lb), (s', asked log (byName_ name)))
  | (Err msg, s') => (Err msg, (s', asked log (byName_ name)))
  end.
Proof.
  unfold findLoadBalancerByName, bind, call, asked. simpl.
  destruct (DescribeLoadBalancers (byName_ name) s) as [[[|lb lbs]|msg] s'];
    reflexivity.
Qed.

(** The three sources in their order. *)
Lemma findLoadBalancer_order service σ :
  (forall id, explicitLoadBalancerId_ service = Some id ->
     findLoadBalancer_ service σ = findLoadBalancerByID_ id σ)
  /\ (explicitLoadBalancerId_ service = None ->
      forall id, fromLoadBalancerStatus service = Some id ->
        findLoadBalancer_ service σ = findLoadBalancerByID_ id σ)
  /\ (explicitLoadBalancerId_ service = None ->
      fromLoadBalancerStatus service = None ->
      findLoadBalancer_ service σ
      = findLoadBalancerByName_ (GetLoadBalancerName service) σ).
Proof.
  unfold findLoadBalancer. split; [|split].
  - intros id ->. reflexivity.
  - intros -> id ->. reflexivity.
  - intros -> ->. reflexivity.
Qed.

(** C3. A service with no explicit-ID annotation and no ID in its
    ingress status, for whose derived name the lookup returns no record,
    is reported as not existing, without an error, after that one
    lookup. *)
Theorem findLoadBalancer_not_found service s log s' :
  explicitLoadBalancerId_ service = None ->
  fromLoadBalancerStatus service = None ->
  DescribeLoadBalancers (byName_ (GetLoadBalancerName service)) s = (Ok [], s') ->
  findLoadBalancer_ service (s, log)
  = (Ok (false, None),
     (s', asked log (byName_ (GetLoadBalancerName service)))).
Proof.
  intros Hexp Hing Hnone.
  destruct (findLoadBalancer_order service (s, log)) as (_ & _ & Hname).
  rewrite (Hname Hexp Hing).
  now rewrite findLoadBalancerByName_eq, Hnone.
Qed.

(** C4. For a service with the explicit-ID annotation, a fetch by that ID
    that finds nothing or fails makes [findLoadBalancer] return an error;
    the fetch by ID is the only call made, whatever the ingress status
    and the derived name would have led to. *)
Theorem explicit_id_failure_is_error service id s log answer s' :
  explicitLoadBalancerId_ service = Some id ->
  DescribeLoadBalancers (byId_ id) s = (answer, s') ->
  answer = Ok [] \/ is_err answer = true ->
  exists msg,
    findLoadBalancer_ service (s, log) = (Err msg, (s', asked log (byId_ id))).
Proof.
  intros Hexp Hcall Hfail.
  destruct (findLoadBalancer_order service (s, log)) as (Hid & _).
  rewrite (Hid id Hexp), findLoadBalancerByID_eq, Hcall.
  destruct Hfail as [->|Herr]; [eauto|].
  destruct answer as [lbs|msg]; [discriminate|eauto].
Qed.
End ResolverFacts.

(** ** The ingress hostname *)

Lemma loadBalancerDomain_eq name id region :
  loadBalancerDomain name id region
  = name +:+ String "." (id +:+ String "." region).
Proof. reflexivity. Qed.

Lemma parse_loadBalancerDomain name id region :
  Count "." name = 0 -> Count "." id = 0 -> Count "." region = 0 ->
  parseLoadBalancerDomain (loadBalancerDomain name id region) = Some id.
Proof.
  intros Hname Hid Hregion. unfold parseLoadBalancerDomain.
  rewrite loadBalancerDomain_eq.
  rewrite (Split_app "." name _ Hname), (Split_app "." id _ Hid).
  now rewrite (Split_free "." region Hregion).
Qed.

(** Two different IDs can produce the same hostname, so no way of reading
    hostnames gives every ID back. *)
Lemma no_parser_inverts_loadBalancerDomain (parse : string -> option string) :
  ~ (forall name id region, parse (loadBalancerDomain name id region) = Some id).
Proof.
  intros Hparse.
  pose proof (Hparse "a.b" "c" "d") as H1.
  pose proof (Hparse "a" "b.c" "d") as H2.
  change (loadBalancerDomain "a" "b.c" "d")
    with (loadBalancerDomain "a.b" "c" "d") in H2.
  rewrite H1 in H2. discriminate.
Qed.

(** ** The resolver against the vendor *)

Section VendorFacts.
Variable DEFAULT_REGION : string.

Local Abbreviation byId_ := (byId DEFAULT_REGION).
Local Abbreviation byName_ := (byName DEFAULT_REGION).

Lemma matches_byId id lb :
  id <> "" ->
  vendor.matches (byId_ id) lb = true <-> slb.LoadBalancerId lb = id.
Proof.
  intros Hid. apply String.eqb_neq in Hid.
  unfold vendor.matches, nonempty. simpl. rewrite Hid. simpl.
  rewrite andb_true_r. apply String.eqb_eq.
Qed.

Lemma matches_byName name lb :
  name <> "" ->
  vendor.matches (byName_ name) lb = true <-> slb.LoadBalancerName lb = name.
Proof.
  intros Hname. apply String.eqb_neq in Hname.
  unfold vendor.matches, nonempty. simpl. rewrite Hname. simpl.
  apply String.eqb_eq.
Qed.

(** A filter that some element passes returns a first element, which
    passes it. *)
Lemma filter_first {A} (p : A -> bool) (l : list A) :
  (exists x, In x l /\ p x = true) ->
  exists y rest, List.filter p l = y :: rest /\ In y l /\ p y = true.
Proof.
  intros (x & Hin & Hp).
  assert (Hx : In x (List.filter p l)) by (apply filter_In; auto).
  destruct (List.filter p l) as [|y rest] eqn:E; [destruct Hx|].
  exists y, rest. split; [reflexivity|].
  apply filter_In. rewrite E. now left.
Qed.

Lemma vendor_fetch_by_id id records log :
  id <> "" ->
  (exists lb, In lb records /\ slb.LoadBalancerId lb = id) ->
  exists found,
    findLoadBalancerByID (sdk:=vendor.client) DEFAULT_REGION id (records, log)
    = (Ok (true, Some found), (records, asked log (byId_ id)))
    /\ slb.LoadBalancerId found = id /\ In found records.
Proof.
  intros Hid (lb & Hin & Hlb).
  destruct (filter_first (vendor.matches (byId_ id)) records)
    as (found & rest & Hfilter & Hfound & Hmatch).
  { exists lb. split; [exact Hin|]. now apply matches_byId. }
  exists found. rewrite findLoadBalancerByID_eq. simpl. rewrite Hfilter.
  split; [reflexivity|]. split; [|exact Hfound].
  now apply matches_byId in Hmatch.
Qed.

Lemma vendor_lookup_by_name name records log :
  name <> "" ->
  (exists lb, In lb records /\ slb.LoadBalancerName lb = name) ->
  exists found,
    findLoadBalancerByName (sdk:=vendor.client) DEFAULT_REGION name (records, log)
    = (Ok (true, Some found), (records, asked log (byName_ name)))
    /\ slb.LoadBalancerName found = name /\ In found records.
Proof.
  intros Hname (lb & Hin & Hlb).
  destruct (filter_first (vendor.matches (byName_ name)) records)
    as (found & rest & Hfilter & Hfound & Hmatch).
  { exists lb. split; [exact Hin|]. now apply matches_byName. }
  exists found. rewrite findLoadBalancerByName_eq. simpl. rewrite Hfilter.
  split; [reflexivity|]. split; [|exact Hfound].
  now apply matches_byName in Hmatch.
Qed.
End VendorFacts.

(** C1. [findLoadBalancer] tries its sources in a fixed order and the first
    one present decides: with the explicit-ID annotation it is the fetch by
    that ID, else with an ID encoded in the ingress status it is the fetch
    by that ID, else it is the lookup by the derived name. Against the
    vendor this means: the annotation resolves to a record with that ID
    whatever the ingress status and the derived name point to, the ingress
    ID resolves to a record with that ID, and a match on the derived name
    returns exists=true with [LoadBalancerName] equal to the derived
    name. *)
Theorem findLoadBalancer_resolution_order
    (DEFAULT_REGION ServiceAnnotationLoadBalancerId : string)
    (naming : v1.Service -> string) :
  let explicit := explicitLoadBalancerId ServiceAnnotationLoadBalancerId in
  let find St (sdk : ClientSLBSDK St) :=
    findLoadBalancer (sdk:=sdk) DEFAULT_REGION ServiceAnnotationLoadBalancerId
      naming in
  (forall St (sdk : ClientSLBSDK St) service σ,
      (forall id, explicit service = Some id ->
         find St sdk service σ
         = findLoadBalancerByID (sdk:=sdk) DEFAULT_REGION id σ)
      /\ (explicit service = None ->
          forall id, fromLoadBalancerStatus service = Some id ->
            find St sdk service σ
            = findLoadBalancerByID (sdk:=sdk) DEFAULT_REGION id σ)
      /\ (explicit service = None ->
          fromLoadBalancerStatus service = None ->
          find St sdk service σ
          = findLoadBalancerByName (sdk:=sdk) DEFAULT_REGION (naming service) σ))
  /\ (forall service records log id,
        explicit service = Some id -> id <> "" ->
        (exists lb, In lb records /\ slb.LoadBalancerId lb = id) ->
        exists found,
          find _ vendor.client service (records, log)
          = (Ok (true, Some found),
             (records, asked log (byId DEFAULT_REGION id)))
          /\ slb.LoadBalancerId found = id /\ In found records)
  /\ (forall service records log id,
        explicit service = None ->
        fromLoadBalancerStatus service = Some id -> id <> "" ->
        (exists lb, In lb records /\ slb.LoadBalancerId lb = id) ->
        exists found,
          find _ vendor.client service (records, log)
          = (Ok (true, Some found),
             (records, asked log (byId DEFAULT_REGION id)))
          /\ slb.LoadBalancerId found = id /\ In found records)
  /\ (forall service records log,
        explicit service = None ->
        fromLoadBalancerStatus service = None -> naming service <> "" ->
        (exists lb, In lb records /\ slb.LoadBalancerName lb = naming service) ->
        exists found,
          find _ vendor.client service (records, log)
          = (Ok (true, Some found),
             (records, asked log (byName DEFAULT_REGION (naming service))))
          /\ slb.LoadBalancerName found = naming service /\ In found records).
Proof.
  intros explicit find. subst explicit find.
  split; [|split; [|split]].
  - intros St sdk service σ. apply findLoadBalancer_order.
  - intros service records log id Hexp Hid Hrec.
    destruct (findLoadBalancer_order (sdk:=vendor.client) DEFAULT_REGION
                ServiceAnnotationLoadBalancerId naming service (records, log))
      as (Hfirst & _).
    rewrite (Hfirst id Hexp). now apply vendor_fetch_by_id.
  - intros service records log id Hexp Hing Hid Hrec.
    destruct (findLoadBalancer_order (sdk:=vendor.client) DEFAULT_REGION
                ServiceAnnotationLoadBalancerId naming service (records, log))
      as (_ & Hsecond & _).
    rewrite (Hsecond Hexp id Hing). now apply vendor_fetch_by_id.
  - intros service records log Hexp Hing Hname Hrec.
    destruct (findLoadBalancer_order (sdk:=vendor.client) DEFAULT_REGION
                ServiceAnnotationLoadBalancerId naming service (records, log))
      as (_ & _ & Hthird).
    rewrite (Hthird Hexp Hing). now apply vendor_lookup_by_name.
Qed.

(** An entry that encodes the ID decides, unless an earlier entry encodes
    another one. *)
Lemma fromIngress_found id before entry after :
  Forall (fun earlier =>
            parseLoadBalancerDomain (v1.Hostname earlier) = None \/
            parseLoadBalancerDomain (v1.Hostname earlier) = Some id) before ->
  parseLoadBalancerDomain (v1.Hostname entry) = Some id ->
  fromIngress (before ++ entry :: after) = Some id.
Proof.
  intros Hbefore Hentry.
  induction Hbefore as [|earlier before [Hnone|Hsame] _ IH]; simpl.
  - now rewrite Hentry.
  - now rewrite Hnone.
  - now rewrite Hsame.
Qed.

(** Against the vendor a fetch by a non-empty ID has two outcomes: a
    record with that ID, or the error when no record has it. *)
Lemma vendor_fetch_by_id_cases region id records log :
  id <> "" ->
  (exists found,
      findLoadBalancerByID (sdk:=vendor.client) region id (records, log)
      = (Ok (true, Some found), (records, asked log (byId region id)))
      /\ slb.LoadBalancerId found = id /\ In found records)
  \/ ((forall lb, In lb records -> slb.LoadBalancerId lb <> id)
      /\ findLoadBalancerByID (sdk:=vendor.client) region id (records, log)
         = (Err (not_found id), (records, asked log (byId region id)))).
Proof.
  intros Hid. rewrite findLoadBalancerByID_eq. simpl.
  destruct (List.filter (vendor.matches (byId region id)) records)
    as [|found rest] eqn:Hfilter.
  - right. split; [|reflexivity].
    intros lb Hin Hlb.
    assert (Hmatch : In lb (List.filter (vendor.matches (byId region id)) records)).
    { apply filter_In. split; [exact Hin|]. now apply matches_byId. }
    rewrite Hfilter in Hmatch. destruct Hmatch.
  - left. exists found. split; [reflexivity|].
    assert (Hfound : In found (List.filter (vendor.matches (byId region id)) records))
      by (rewrite Hfilter; now left).
    apply filter_In in Hfound as [Hin Hmatch].
    split; [|exact Hin]. now apply (matches_byId region) in Hmatch.
Qed.

(** C2. The hostname service-name.loadbalancer-id.region, produced for a
    service name, a load-balancer ID and a region (none of which contains
    a dot), is read back as exactly that ID. So for a service without the
    explicit-ID annotation whose ingress status holds a hostname produced
    for the ID, no earlier entry encoding another one, [findLoadBalancer]
    is the fetch of that ID with every client: a record it returns is the
    one the client returned for that ID, and against the vendor it is a
    record with that ID, or the error if the vendor has none. *)
Theorem loadBalancerDomain_roundtrip
    (DEFAULT_REGION ServiceAnnotationLoadBalancerId : string)
    (naming : v1.Service -> string) (name id region : string) :
  Count "." name = 0 -> Count "." id = 0 -> Count "." region = 0 ->
  parseLoadBalancerDomain (loadBalancerDomain name id region) = Some id
  /\ forall service before ip after,
      explicitLoadBalancerId ServiceAnnotationLoadBalancerId service = None ->
      v1.Ingress (v1.LoadBalancer (v1.Status service))
      = (before
         ++ {| v1.IP := ip; v1.Hostname := loadBalancerDomain name id region |}
            :: after)%list ->
      Forall (fun earlier =>
                parseLoadBalancerDomain (v1.Hostname earlier) = None \/
                parseLoadBalancerDomain (v1.Hostname earlier) = Some id)
             before ->
      (forall St (sdk : ClientSLBSDK St) σ,
          findLoadBalancer (sdk:=sdk) DEFAULT_REGION
            ServiceAnnotationLoadBalancerId naming service σ
          = findLoadBalancerByID (sdk:=sdk) DEFAULT_REGION id σ)
      /\ (forall St (sdk : ClientSLBSDK St) s log exists_ lb σ',
            findLoadBalancer (sdk:=sdk) DEFAULT_REGION
              ServiceAnnotationLoadBalancerId naming service (s, log)
            = (Ok (exists_, Some lb), σ') ->
            exists_ = true
            /\ exists rest s',
                DescribeLoadBalancers (byId DEFAULT_REGION id) s
                = (Ok (lb :: rest), s'))
      /\ (forall records log,
            id <> "" ->
            (exists found,
                findLoadBalancer (sdk:=vendor.client) DEFAULT_REGION
                  ServiceAnnotationLoadBalancerId naming service (records, log)
                = (Ok (true, Some found),
                   (records, asked log (byId DEFAULT_REGION id)))
                /\ slb.LoadBalancerId found = id /\ In found records)
            \/ ((forall lb, In lb records -> slb.LoadBalancerId lb <> id)
                /\ findLoadBalancer (sdk:=vendor.client) DEFAULT_REGION
                     ServiceAnnotationLoadBalancerId naming service
                     (records, log)
                   = (Err (not_found id),
                      (records, asked log (byId DEFAULT_REGION id))))).
Proof.
  intros Hname Hid Hregion.
  pose proof (parse_loadBalancerDomain name id region Hname Hid Hregion) as Hparse.
  split; [exact Hparse|].
  intros service before ip after Hexp Hingress Hbefore.
  assert (Hfrom : fromLoadBalancerStatus service = Some id).
  { unfold fromLoadBalancerStatus. rewrite Hingress.
    now apply fromIngress_found. }
  assert (Hfetch : forall St (sdk : ClientSLBSDK St) σ,
             findLoadBalancer (sdk:=sdk) DEFAULT_REGION
               ServiceAnnotationLoadBalancerId naming service σ
             = findLoadBalancerByID (sdk:=sdk) DEFAULT_REGION id σ).
  { intros St sdk σ.
    destruct (findLoadBalancer_order (sdk:=sdk) DEFAULT_REGION
                ServiceAnnotationLoadBalancerId naming service σ)
      as (_ & Hsecond & _).
    exact (Hsecond Hexp id Hfrom). }
  split; [exact Hfetch|]. split.
  - intros St sdk s log exists_ lb σ'.
    rewrite Hfetch, findLoadBalancerByID_eq.
    destruct (DescribeLoadBalancers (byId DEFAULT_REGION id) s)
      as [[[|first rest]|msg] s']; try discriminate.
    intros [= <- <- _]. split; [reflexivity|]. eauto.
  - intros records log Hne. rewrite Hfetch.
    now apply vendor_fetch_by_id_cases.
Qed.

(** ** Backend-server reconciliation *)

Section BackendFacts.
Context {St : Type} {sdk : ClientSLBSDK St} {law : BackendMembership sdk}.
Variable weight : Z.
Variable loadBalancerId : string.

Local Abbreviation UpdateBackendServers_ :=
  (UpdateBackendServers (sdk:=sdk) weight loadBalancerId).
Local Abbreviation server :=
  (fun id => {| slb.ServerId := id; slb.Weight := weight |}).

Lemma ServerId_server (ids : list string) :
  slb.ServerId <$> (server <$> ids) = ids.
Proof.
  induction ids as [|id ids IH]; [reflexivity|].
  rewrite !fmap_cons. simpl. now rewrite IH.
Qed.

Lemma filter_nil_iff (P : string -> Prop) `{forall x, Decision (P x)}
    (l : list string) :
  filter P l = [] <-> forall x, x ∈ l -> ~ P x.
Proof.
  split.
  - intros Hnil x Hin HP.
    assert (Hx : x ∈ filter P l) by (apply list_elem_of_filter; auto).
    rewrite Hnil in Hx. inversion Hx.
  - intros Hall. destruct (filter P l) as [|y rest] eqn:E; [reflexivity|].
    assert (Hy : y ∈ filter P l) by (rewrite E; left).
    apply list_elem_of_filter in Hy as [HP Hin]. now destruct (Hall y Hin).
Qed.

Lemma bind_ok {A B} (m : SLB St A) (k : A -> SLB St B) σ b σ2 :
  bind m k σ = (Ok b, σ2) ->
  exists a σ1, m σ = (Ok a, σ1) /\ k a σ1 = (Ok b, σ2).
Proof.
  unfold bind. destruct (m σ) as [[a|msg] σ1]; [eauto|discriminate].
Qed.

Lemma call_ok {A} what (f : St -> result A * St) s log a σ1 :
  call what f (s, log) = (Ok a, σ1) ->
  exists s1, f s = (Ok a, s1) /\ σ1 = (s1, (log ++ [what])%list).
Proof.
  unfold call. simpl. destruct (f s) as [r s1]. intros [= -> <-]. eauto.
Qed.

Lemma unless_empty_ok {A B} (l : list A) (m : SLB St (list B)) σ r σ1 :
  unless_empty l m σ = (Ok r, σ1) ->
  (l = [] /\ σ1 = σ) \/ (l <> [] /\ m σ = (Ok r, σ1)).
Proof.
  destruct l; simpl.
  - intros [= <- <-]. now left.
  - intros Hm. right. split; [discriminate|exact Hm].
Qed.

(** A pass over a membership that already is the node set makes no
    add or remove call. *)
Lemma UpdateBackendServers_quiet nodes s log :
  (forall x, x ∈ members s loadBalancerId <-> x ∈ nodes) ->
  mutations (snd (snd (UpdateBackendServers_ nodes (s, log)))) = mutations log.
Proof.
  intros Hsame. unfold UpdateBackendServers, bind, call. simpl.
  destruct (DescribeLoadBalancerAttribute loadBalancerId s)
    as [found s0] eqn:Hdescribe.
  assert (Hlog : mutations
                   (log ++ [CallDescribeLoadBalancerAttribute loadBalancerId])
                 = mutations log).
  { unfold mutations. rewrite List.filter_app. simpl. apply app_nil_r. }
  destruct (describe_members _ _ _ _ Hdescribe) as [_ Hreport].
  destruct found as [[lb|]|msg]; simpl; try exact Hlog.
  specialize (Hreport lb eq_refl).
  set (current := slb.ServerId <$> slb.BackendServers lb) in *.
  assert (Hadd : filter (fun id => id ∉ current) nodes = []).
  { apply filter_nil_iff. intros x Hin Hout. apply Hout.
    apply Hreport, Hsame, Hin. }
  assert (Hdel : filter (fun id => id ∉ nodes) current = []).
  { apply filter_nil_iff. intros x Hin Hout. apply Hout.
    apply Hsame, Hreport, Hin. }
  rewrite Hadd, Hdel. simpl. exact Hlog.
Qed.

(** A pass that returns without error leaves the node set as the
    membership. *)
Lemma UpdateBackendServers_converges nodes s log s1 log1 :
  UpdateBackendServers_ nodes (s, log) = (Ok tt, (s1, log1)) ->
  forall x, x ∈ members s1 loadBalancerId <-> x ∈ nodes.
Proof.
  unfold UpdateBackendServers. intros Hpass.
  apply bind_ok in Hpass as (found & σ0 & Hdescribe & Hpass).
  apply call_ok in Hdescribe as (s0 & Hdescribe & Hσ0). subst σ0.
  destruct (describe_members _ _ _ _ Hdescribe) as [Hkeep Hreport].
  destruct found as [lb|]; [|discriminate].
  specialize (Hreport lb eq_refl).
  set (current := slb.ServerId <$> slb.BackendServers lb) in *.
  set (additions := filter (fun id => id ∉ current) nodes) in *.
  set (deletions := filter (fun id => id ∉ nodes) current) in *.
  assert (Hadditions :
            forall x, x ∈ additions <-> ((x ∉ current) /\ (x ∈ nodes))).
  { intros x. unfold additions. now rewrite list_elem_of_filter. }
  assert (Hdeletions :
            forall x, x ∈ deletions <-> ((x ∉ nodes) /\ (x ∈ current))).
  { intros x. unfold deletions. now rewrite list_elem_of_filter. }
  apply bind_ok in Hpass as (added & [sa loga] & Hadd & Hpass).
  apply bind_ok in Hpass as (removed & [sd logd] & Hremove & Hpass).
  injection Hpass as <- <-.
  (* the membership after the additions *)
  assert (Hsa : forall x,
             x ∈ members sa loadBalancerId <-> x ∈ current \/ x ∈ nodes).
  { intros x.
    apply unless_empty_ok in Hadd as [[Hnil [= -> ->]]|[_ Hcall]].
    - rewrite Hkeep, <- Hreport. split; [auto|].
      intros [Hcur|Hnode]; [exact Hcur|].
      destruct (decide (x ∈ current)) as [Hin|Hout]; [exact Hin|].
      assert (Hx : x ∈ additions) by (apply Hadditions; auto).
      apply (f_equal (fmap slb.ServerId)) in Hnil.
      rewrite ServerId_server in Hnil. rewrite Hnil in Hx. inversion Hx.
    - apply call_ok in Hcall as (sa' & Hcall & [= -> ->]).
      rewrite (add_members _ _ _ _ _ Hcall x), ServerId_server, Hkeep,
        <- Hreport, Hadditions.
      destruct (decide (x ∈ current)); tauto. }
  (* the membership after the deletions *)
  intros x.
  apply unless_empty_ok in Hremove as [[Hnil [= -> ->]]|[_ Hcall]].
  - rewrite Hsa. split; [|auto].
    intros [Hcur|Hnode]; [|exact Hnode].
    destruct (decide (x ∈ nodes)) as [Hin|Hout]; [exact Hin|].
    assert (Hx : x ∈ deletions) by (apply Hdeletions; auto).
    rewrite Hnil in Hx. inversion Hx.
  - apply call_ok in Hcall as (sd' & Hcall & [= -> ->]).
    rewrite (remove_members _ _ _ _ _ Hcall x), Hsa, Hdeletions.
    destruct (decide (x ∈ nodes)); tauto.
Qed.

(** C9. Reconciling the backend servers of a load balancer twice in a
    row with the same node set: after a first pass that returned without
    error, the second pass makes no add-backend and no remove-backend
    call. *)
Theorem UpdateBackendServers_idempotent nodes s log s1 log1 :
  UpdateBackendServers_ nodes (s, log) = (Ok tt, (s1, log1)) ->
  mutations (snd (snd (UpdateBackendServers_ nodes (s1, [])))) = [].
Proof.
  intros Hfirst.
  apply (UpdateBackendServers_quiet nodes s1 []).
  eapply UpdateBackendServers_converges. exact Hfirst.
Qed.
End BackendFacts.

(** ** The vendor keeps its membership *)

Lemma find_map_preserved {A} (p : A -> bool) (f : A -> A) (l : list A) :
  (forall x, p (f x) = p x) ->
  List.find p (List.map f l) = option_map f (List.find p l).
Proof.
  intros Hp. induction l as [|x l IH]; simpl; [reflexivity|].
  rewrite Hp. destruct (p x); [reflexivity|exact IH].
Qed.

Lemma backends_edit id f records lb :
  List.find (vendor.has_id id) records = Some lb ->
  vendor.backends (vendor.edit id f records) id
  = slb.ServerId <$> f (slb.BackendServers lb).
Proof.
  intros Hfind. unfold vendor.backends, vendor.edit.
  rewrite find_map_preserved.
  - rewrite Hfind. simpl.
    apply find_some in Hfind as [_ ->]. reflexivity.
  - intros x. unfold vendor.has_id.
    destruct (String.eqb (slb.LoadBalancerId x) id) eqn:Hx; simpl; exact Hx.
Qed.

(** The vendor meets what the backend reconciliation relies on. *)
Lemma vendor_membership : BackendMembership vendor.client.
Proof.
  refine {| members := vendor.backends |}.
  - intros id s found s'. simpl. unfold vendor.backends.
    destruct (List.find (vendor.has_id id) s) as [lb|] eqn:Hfind;
      intros [= <- <-]; rewrite Hfind; (split; [reflexivity|]).
    + intros lb' [= <-] x. reflexivity.
    + intros lb' [=].
  - intros id servers s added s'. simpl.
    destruct (List.find (vendor.has_id id) s) as [lb|] eqn:Hfind;
      [|discriminate].
    intros [= _ <-] x. rewrite (backends_edit _ _ _ _ Hfind).
    unfold vendor.backends. rewrite Hfind, fmap_app. apply elem_of_app.
  - intros id ids s removed s'. simpl.
    destruct (List.find (vendor.has_id id) s) as [lb|] eqn:Hfind;
      [|discriminate].
    intros [= _ <-] x. rewrite (backends_edit _ _ _ _ Hfind).
    unfold vendor.backends. rewrite Hfind, !list_elem_of_fmap. split.
    + intros (b & -> & Hb). apply list_elem_of_filter in Hb as [Hout Hb].
      split; [eauto|exact Hout].
    + intros [(b & -> & Hb) Hout]. exists b. split; [reflexivity|].
      apply list_elem_of_filter. auto.
Defined.

(** ** The scenarios *)

Section TestFindLoadBalancer.
(** The test's client, with any [loadbalancerAttrib]. *)
Variable loadbalancerAttrib : slb.LoadBalancerType -> slb.LoadBalancerType.

Let mock : ClientSLBSDK (list slb.LoadBalancerType) :=
  mockClient 0 (TestFindLoadBalancer_mock loadbalancerAttrib).
Let find (service : v1.Service) :=
  findLoadBalancer (sdk:=mock) "cn-hangzhou" ANNOTATION_LOADBALANCER_ID
    cloudprovider.GetLoadBalancerName service.
Let found (run : result (bool * option slb.LoadBalancerType)
                 * (list slb.LoadBalancerType * list Call)) :=
  match fst run with
  | Ok (true, Some lb) => Some (slb.LoadBalancerId lb, slb.LoadBalancerName lb)
  | _ => None
  end.

Let service1 := service_test ∅ [].
Let base1 := fst (snd (find service1 (newBaseLoadbalancer 0, []))).
Let service2 :=
  service_test {[ ANNOTATION_LOADBALANCER_ID := LOADBALANCER_ID +:+ "-new" ]} [].
Let base2 := fst (snd (find service2 (base1, []))).
Let service3 :=
  service_test
    (delete ANNOTATION_LOADBALANCER_ID
       {[ ANNOTATION_LOADBALANCER_ID := LOADBALANCER_ID +:+ "-new" ]})
    [ {| v1.IP := LOADBALANCER_ADDRESS;
         v1.Hostname := loadBalancerDomain "my-service"
                          (LOADBALANCER_ID +:+ "-ingress") "cn-hangzhou" |} ].

(** 1. No annotation, no ingress: found by the derived name. *)
Example TestFindLoadBalancer_by_name :
  found (find service1 (newBaseLoadbalancer 0, []))
  = Some (LOADBALANCER_ID, cloudprovider.GetLoadBalancerName service1).
Proof. reflexivity. Qed.

(** 2. With the annotation: found by the annotated ID. *)
Example TestFindLoadBalancer_by_annotation :
  found (find service2 (base1, []))
  = Some (LOADBALANCER_ID +:+ "-new", cloudprovider.GetLoadBalancerName service1).
Proof. reflexivity. Qed.

(** 3. Annotation deleted, ingress recorded: found by the ingress ID. *)
Example TestFindLoadBalancer_by_ingress :
  found (find service3 (base2, []))
  = Some (LOADBALANCER_ID +:+ "-ingress", cloudprovider.GetLoadBalancerName service1).
Proof. reflexivity. Qed.
End TestFindLoadBalancer.

(** With a complete cloud-config the static accessor is used, which knows
    no role: without key and secret the constructor fails, and the role
    name is left as it was. *)
Example NewClientMgr_static_metadata_needs_keys :
  NewClientMgr zonedOverrides "cn-hangzhou" "kubernetes.alicloud"
    (roleMetaData "KubernetesWorkerRole") (Some firstToken) "" "secret"
    initialRuntime
  = (Err "unimplemented", initialRuntime).
Proof. reflexivity. Qed.

(** Two ticks of the refresh task: the first finds the metadata service
    down, the second installs the new token in the manager and in both
    client objects. *)
Example refresh_installs_second_token :
  let mgr := run roleRuntime roleManager [None; Some secondToken] in
  authid (token mgr) = triple secondToken
  /\ carried mgr ecsclient = ("STS.two", "secret-two&", "token-two")
  /\ carried mgr slbclient = ("STS.two", "secret-two&", "token-two")
  /\ run roleRuntime roleManager [None] = roleManager.
Proof. repeat split. Qed.

(** After a refresh that fetched the second token, the ECS handle does
    not hold the token's triple: its secret is the token's secret followed
    by an ampersand. *)
Lemma handle_secret_is_not_the_token_secret :
  RamRoleToken (meta roleManager) (Some secondToken) (ROLE_NAME roleRuntime)
  = Ok secondToken
  /\ auth (token (refresh (Some secondToken) roleRuntime roleManager))
     = secondToken
  /\ carried (refresh (Some secondToken) roleRuntime roleManager) ecsclient
     = ("STS.two", "secret-two&", "token-two")
  /\ carried (refresh (Some secondToken) roleRuntime roleManager) ecsclient
     <> triple secondToken.
Proof.
  split; [reflexivity|]. split; [reflexivity|]. split; [reflexivity|].
  discriminate.
Qed.

(** All three sources present and pointing to different records: the
    annotated one is returned, after a single fetch. *)
Example explicit_annotation_wins :
  findLoadBalancer (sdk:=vendor.client) "cn-hangzhou" ANNOTATION_LOADBALANCER_ID
    cloudprovider.GetLoadBalancerName conflictingService (threeRecords, [])
  = (Ok (true, Some (record "lb-annotated" "another-name")),
     (threeRecords, [CallDescribeLoadBalancers (byId "cn-hangzhou" "lb-annotated")])).
Proof. reflexivity. Qed.

(** Why the three pieces must be free of dots: a dotted name gives a
    hostname of four pieces, which encodes no ID. *)
Lemma dotted_name_is_not_read_back :
  parseLoadBalancerDomain (loadBalancerDomain "my.service" "lb-1" "cn-hangzhou")
  <> Some "lb-1".
Proof. discriminate. Qed.

(** ** The theorems at work *)

(** The round trip, and the resolution it gives, for a service whose
    ingress status has an address-only entry before the hostname. *)
Lemma loadBalancerDomain_roundtrip_witness :
  parseLoadBalancerDomain
    (loadBalancerDomain "service-test" "lb-ingress" "cn-hangzhou")
  = Some "lb-ingress"
  /\ exists found,
      findLoadBalancer (sdk:=vendor.client) "cn-hangzhou"
        ANNOTATION_LOADBALANCER_ID cloudprovider.GetLoadBalancerName
        (service_test ∅
           ({| v1.IP := LOADBALANCER_ADDRESS; v1.Hostname := "" |}
              :: v1.Ingress (v1.LoadBalancer (v1.Status conflictingService))))
        (threeRecords, [])
      = (Ok (true, Some found),
         (threeRecords, asked [] (byId "cn-hangzhou" "lb-ingress")))
      /\ slb.LoadBalancerId found = "lb-ingress".
Proof.
  destruct (loadBalancerDomain_roundtrip "cn-hangzhou"
              ANNOTATION_LOADBALANCER_ID cloudprovider.GetLoadBalancerName
              "service-test" "lb-ingress" "cn-hangzhou"
              eq_refl eq_refl eq_refl) as [Hparse Hresolve].
  split; [exact Hparse|].
  destruct (Hresolve
              (service_test ∅
                 ({| v1.IP := LOADBALANCER_ADDRESS; v1.Hostname := "" |}
                    :: v1.Ingress
                         (v1.LoadBalancer (v1.Status conflictingService))))
              [{| v1.IP := LOADBALANCER_ADDRESS; v1.Hostname := "" |}]
              LOADBALANCER_ADDRESS []) as (_ & _ & Hvendor);
    [vm_compute; reflexivity | reflexivity | repeat constructor |].
  destruct (Hvendor threeRecords []) as [(found & Heq & Hfound & _)|[Hnone _]];
    [discriminate | eauto |].
  exfalso. apply (Hnone (record "lb-ingress" "other-name")); [|reflexivity].
  right. left. reflexivity.
Defined.

(** A service nobody has created a load balancer for. *)
Lemma findLoadBalancer_not_found_witness :
  findLoadBalancer (sdk:=vendor.client) "cn-hangzhou"
    ANNOTATION_LOADBALANCER_ID cloudprovider.GetLoadBalancerName (service_test ∅ []) ([], [])
  = (Ok (false, None),
     ([], asked [] (byName "cn-hangzhou" "aabcdefghigklmnopqrstu"))).
Proof.
  apply (findLoadBalancer_not_found (sdk:=vendor.client) "cn-hangzhou"
           ANNOTATION_LOADBALANCER_ID cloudprovider.GetLoadBalancerName
           (service_test ∅ []) [] [] []); vm_compute; reflexivity.
Defined.

(** An annotation that names no record, on a service whose ingress status
    and derived name both match records. *)
Lemma explicit_id_failure_is_error_witness :
  exists msg,
    findLoadBalancer (sdk:=vendor.client) "cn-hangzhou"
      ANNOTATION_LOADBALANCER_ID cloudprovider.GetLoadBalancerName conflictingService
      (firstn 2 threeRecords, [])
    = (Err msg,
       (firstn 2 threeRecords, asked [] (byId "cn-hangzhou" "lb-annotated"))).
Proof.
  apply (explicit_id_failure_is_error (sdk:=vendor.client) "cn-hangzhou"
           ANNOTATION_LOADBALANCER_ID cloudprovider.GetLoadBalancerName conflictingService
           "lb-annotated" (firstn 2 threeRecords) [] (Ok [])
           (firstn 2 threeRecords));
    [vm_compute; reflexivity | reflexivity | left; reflexivity].
Defined.

(** A node without key and secret gets the role token. *)
Lemma NewClientMgr_credential_mode_witness :
  NewClientMgr noOverrides "cn-hangzhou" "kubernetes.alicloud"
    (roleMetaData "KubernetesWorkerRole") (Some firstToken) "" "" initialRuntime
  = (Ok roleManager, roleRuntime)
  /\ active (token roleManager) = true
  /\ auth (token roleManager) = firstToken
  /\ active (token (run roleRuntime roleManager [None; Some secondToken])) = true.
Proof.
  pose proof (NewClientMgr_credential_mode noOverrides "cn-hangzhou"
                "kubernetes.alicloud" (roleMetaData "KubernetesWorkerRole")
                (Some firstToken) "" "" initialRuntime roleManager roleRuntime
                eq_refl) as (Hmode & _ & _ & Hkeep).
  split; [reflexivity|]. split; [exact Hmode|]. split; [reflexivity|].
  rewrite (Hkeep _ (run_steps roleRuntime roleManager [None; Some secondToken])).
  exact Hmode.
Defined.

(** The metadata service cannot be reached at one tick and answers at the
    next. *)
Lemma refresh_failure_keeps_credentials_witness :
  refresh None roleRuntime roleManager = roleManager
  /\ authid (token (refresh None roleRuntime roleManager)) = triple firstToken
  /\ auth (token (refresh (Some secondToken) roleRuntime
                    (refresh None roleRuntime roleManager))) = secondToken.
Proof.
  destruct (refresh_failure_keeps_credentials None roleRuntime roleManager
              "timeout" eq_refl) as (Hsame & Hauth & _ & _ & _ & Hnext).
  split; [exact Hsame|]. split.
  - unfold authid, triple. now rewrite Hauth.
  - apply Hnext. reflexivity.
Defined.

(** A manager given a key and a secret. *)
Lemma explicit_mode_terminal_witness :
  exists mgr,
    NewClientMgr noOverrides "cn-hangzhou" "kubernetes.alicloud"
      (roleMetaData "KubernetesWorkerRole") None "key" "secret" initialRuntime
    = (Ok mgr, initialRuntime)
    /\ authid (token (run initialRuntime mgr [Some firstToken; Some secondToken]))
       = ("key", "secret", "").
Proof.
  destruct (explicit_mode_terminal noOverrides "cn-hangzhou"
              "kubernetes.alicloud" (roleMetaData "KubernetesWorkerRole")
              None "key" "secret" initialRuntime)
    as (mgr & Hnew & _ & _ & Hrun); [discriminate | discriminate | reflexivity |].
  exists mgr. split; [exact Hnew|apply Hrun].
Defined.

(** Two new nodes and one stale backend server: the first pass adds and
    removes, the second does neither. *)
Lemma UpdateBackendServers_idempotent_witness :
  let pass := UpdateBackendServers (sdk:=vendor.client) 100 "lb-1" ["i-a"; "i-b"] in
  fst (pass (staleRecords, [])) = Ok tt
  /\ length (mutations (snd (snd (pass (staleRecords, []))))) = 2
  /\ mutations (snd (snd (pass (fst (snd (pass (staleRecords, []))), [])))) = [].
Proof.
  intros pass. split; [reflexivity|]. split; [reflexivity|].
  apply (UpdateBackendServers_idempotent (law:=vendor_membership) 100 "lb-1"
           ["i-a"; "i-b"] staleRecords []
           (fst (snd (pass (staleRecords, []))))
           (snd (snd (pass (staleRecords, []))))).
  reflexivity.
Defined.

(** The instance is in zone cn-hangzhou-b, which has an entry, and still
    gets the whole configuration string. *)
Lemma VswitchID_never_selects_witness :
  fakeMetaData.Zone zonedOverrides (roleMetaData "KubernetesWorkerRole") None
  = Ok "cn-hangzhou-b"
  /\ fakeMetaData.VswitchID zonedOverrides (roleMetaData "KubernetesWorkerRole") None
     = Ok "cn-hangzhou-a:vsw-1,cn-hangzhou-b:vsw-2"
  /\ fakeMetaData.VswitchID zonedOverrides (roleMetaData "KubernetesWorkerRole") None
     <> Ok "vsw-2".
Proof.
  destruct (VswitchID_never_selects zonedOverrides
              (roleMetaData "KubernetesWorkerRole") None "cn-hangzhou-b")
    as [Hwhole _]; [simpl; lia | reflexivity |].
  destruct Hwhole as [Hret Hnever]; [repeat constructor|].
  split; [reflexivity|]. split; [exact Hret|].
  apply (Hnever "cn-hangzhou-b:vsw-2"). right. left. reflexivity.
Defined.

(** * More of clientmgr.go *)

(** ** The metadata accessor chosen by NewMetaData *)

Section MetaDataFacts.
Context {W : Type}.
Variable Global : cfg.Global.
Variable liveMetaData : IMetaData W.

Local Abbreviation NewMetaData_ := (NewMetaData Global liveMetaData).
Local Abbreviation whole := (cfg.VswitchID Global).

Lemma nonempty_true s : nonempty s = true <-> s <> "".
Proof.
  unfold nonempty. rewrite negb_true_iff. apply String.eqb_neq.
Qed.

Lemma nonempty_false s : nonempty s = false <-> s = "".
Proof.
  unfold nonempty. rewrite negb_false_iff. apply String.eqb_eq.
Qed.

Lemma NewMetaData_complete :
  cfg.Region Global <> "" -> cfg.VpcID Global <> "" ->
  cfg.VswitchID Global <> "" -> cfg.ZoneID Global <> "" ->
  NewMetaData_ = fakeMetaData.new Global liveMetaData.
Proof.
  intros Hr Hv Hs Hz. unfold NewMetaData.
  apply nonempty_true in Hr, Hv, Hs, Hz. now rewrite Hr, Hv, Hs, Hz.
Qed.

(** The loop of [VswitchID] has two outcomes only. *)
Lemma VswitchID_range_table zone zlist :
  fakeMetaData.VswitchID_range Global zone zlist
  = if forallb (fun entry => Nat.eqb (Count ":" entry) 1) zlist then None
    else Some (Err ("cloud-config vswitch format error: " +:+ whole)).
Proof.
  revert zone. induction zlist as [|entry rest IH]; intros zone;
    [reflexivity|].
  cbn [fakeMetaData.VswitchID_range forallb].
  rewrite Split_length.
  change (Nat.eqb (S (Count ":" entry)) 2) with (Nat.eqb (Count ":" entry) 1).
  destruct (Nat.eqb (Count ":" entry) 1) eqn:Hone; simpl; [|reflexivity].
  apply Nat.eqb_eq in Hone.
  rewrite first_piece_differs by (rewrite Split_length; lia).
  apply IH.
Qed.

(** [VswitchID] as a table of its cases. *)
Lemma VswitchID_cases (base : IMetaData W) (w : W) :
  fakeMetaData.VswitchID Global base w
  = (if Nat.eqb (Count "," whole) 0 then Ok whole
     else match fakeMetaData.Zone Global base w with
          | Err err => Err ("retrieve vswitchid error for " +:+ err)
          | Ok _ =>
              if forallb (fun entry => Nat.eqb (Count ":" entry) 1)
                         (Split "," whole)
              then Ok whole
              else Err ("cloud-config vswitch format error: " +:+ whole)
          end).
Proof.
  unfold fakeMetaData.VswitchID. rewrite Split_length.
  change (Nat.eqb (S (Count "," whole)) 1) with (Nat.eqb (Count "," whole) 0).
  destruct (Nat.eqb (Count "," whole) 0); [reflexivity|].
  destruct (fakeMetaData.Zone Global base w) as [zone|err]; [|reflexivity].
  rewrite VswitchID_range_table.
  now destruct (forallb _ (Split "," whole)).
Qed.

(** X1. [VswitchID] in full: a configuration without a comma is returned
    as it is, without a look at the zone; with a comma, a zone that cannot
    be determined is the error, whatever the entries are; else the answer
    is the whole configuration if every entry has exactly one colon and
    the format error if not. So an answer without error is always the
    whole configured string. *)
Theorem VswitchID_table (base : IMetaData W) (w : W) :
  fakeMetaData.VswitchID Global base w
  = (if Nat.eqb (Count "," whole) 0 then Ok whole
     else match fakeMetaData.Zone Global base w with
          | Err err => Err ("retrieve vswitchid error for " +:+ err)
          | Ok _ =>
              if forallb (fun entry => Nat.eqb (Count ":" entry) 1)
                         (Split "," whole)
              then Ok whole
              else Err ("cloud-config vswitch format error: " +:+ whole)
          end)
  /\ forall vswitch,
      fakeMetaData.VswitchID Global base w = Ok vswitch -> vswitch = whole.
Proof.
  split; [apply VswitchID_cases|].
  intros vswitch. rewrite VswitchID_cases.
  destruct (Nat.eqb (Count "," whole) 0); [congruence|].
  destruct (fakeMetaData.Zone Global base w); [|discriminate].
  destruct (forallb _ (Split "," whole)); [congruence|discriminate].
Qed.

(** X2. [NewMetaData] is all or nothing. With region, VPC, vswitch and
    zone all configured, the accessor answers from the configuration
    alone: region, zone, VPC and instance ID never fail and the vswitch
    answer is the same whatever the live service and the moment are. With
    any of the four missing, the accessor is the live service itself, so
    the fields that are configured override nothing. *)
Theorem NewMetaData_all_or_nothing :
  (cfg.Region Global <> "" -> cfg.VpcID Global <> "" ->
   cfg.VswitchID Global <> "" -> cfg.ZoneID Global <> "" ->
   forall w : W,
     Region NewMetaData_ w = Ok (cfg.Region Global)
     /\ Zone NewMetaData_ w = Ok (cfg.ZoneID Global)
     /\ VpcID NewMetaData_ w = Ok (cfg.VpcID Global)
     /\ InstanceID NewMetaData_ w = Ok "fakedInstanceid"
     /\ (forall (other : IMetaData W) (w' : W),
           VswitchID NewMetaData_ w
           = VswitchID (NewMetaData Global other) w')
     /\ (forall err, VswitchID NewMetaData_ w
                     <> Err ("retrieve vswitchid error for " +:+ err)))
  /\ (cfg.Region Global = "" \/ cfg.VpcID Global = "" \/
      cfg.VswitchID Global = "" \/ cfg.ZoneID Global = "" ->
      NewMetaData_ = liveMetaData).
Proof.
  split.
  - intros Hr Hv Hs Hz w.
    rewrite (NewMetaData_complete Hr Hv Hs Hz). simpl.
    assert (Hzone : forall (b : IMetaData W) (x : W),
               fakeMetaData.Zone Global b x = Ok (cfg.ZoneID Global)).
    { intros b x. unfold fakeMetaData.Zone.
      apply nonempty_true in Hz. now rewrite Hz. }
    split; [|split; [exact (Hzone _ _)|split; [reflexivity|split;
      [reflexivity|split]]]].
    + unfold fakeMetaData.Region. apply nonempty_true in Hr. now rewrite Hr.
    + intros other w'.
      unfold NewMetaData. apply nonempty_true in Hr, Hv, Hs, Hz.
      rewrite Hr, Hv, Hs, Hz. simpl.
      rewrite (VswitchID_cases liveMetaData w), (VswitchID_cases other w').
      now rewrite !Hzone.
    + intros err. rewrite (VswitchID_cases liveMetaData w), Hzone.
      destruct (Nat.eqb (Count "," whole) 0); [discriminate|].
      destruct (forallb _ (Split "," whole)); [discriminate|].
      simpl. discriminate.
  - intros Hmissing. unfold NewMetaData.
    destruct Hmissing as [H|[H|[H|H]]]; apply nonempty_false in H; rewrite H;
      rewrite ?andb_false_r; reflexivity.
Qed.
End MetaDataFacts.

(** ** Construction and refresh of the client manager *)

Section ClientManagerMore.
Context {W : Type}.
Variable Global : cfg.Global.
Variable DEFAULT_REGION : string.
Variable KUBERNETES_ALICLOUD_IDENTITY : string.
Variable liveMetaData : IMetaData W.

Local Abbreviation NewClientMgr_ :=
  (NewClientMgr Global DEFAULT_REGION KUBERNETES_ALICLOUD_IDENTITY liveMetaData).
Local Abbreviation NewMetaData_ := (NewMetaData Global liveMetaData).
Local Abbreviation assemble_ :=
  (assemble (W:=W) DEFAULT_REGION KUBERNETES_ALICLOUD_IDENTITY).

Lemma role_mode key secret :
  String.eqb key "" || String.eqb secret "" = true <-> key = "" \/ secret = "".
Proof. rewrite orb_true_iff, !String.eqb_eq. reflexivity. Qed.

Lemma key_mode key secret :
  String.eqb key "" || String.eqb secret "" = false <-> key <> "" /\ secret <> "".
Proof. rewrite orb_false_iff, !String.eqb_neq. reflexivity. Qed.

(** X3. [NewClientMgr] returns a manager exactly when key and secret are
    both given, or the metadata service names a role and hands out a
    token for that role. *)
Theorem NewClientMgr_succeeds_iff (w : W) key secret rt :
  (exists mgr rt', NewClientMgr_ w key secret rt = (Ok mgr, rt'))
  <-> (key <> "" /\ secret <> "")
      \/ (exists rolename role,
            RoleName NewMetaData_ w = Ok rolename /\
            RamRoleToken NewMetaData_ w rolename = Ok role).
Proof.
  split.
  - intros (mgr & rt' & Hnew).
    destruct (NewClientMgr_inv _ _ _ _ _ _ _ _ _ _ Hnew)
      as [(Hmode & _)|(_ & rolename & role & Hname & Hrole & _)].
    + left. now apply key_mode.
    + right. eauto.
  - intros Hcan. unfold NewClientMgr.
    destruct (String.eqb key "" || String.eqb secret "") eqn:Hmode.
    + destruct Hcan as [Hkeys|(rolename & role & Hname & Hrole)].
      * apply key_mode in Hkeys. congruence.
      * rewrite Hname. simpl. rewrite Hrole. simpl. eauto.
    + simpl. eauto.
Qed.

(** X4. A construction that fails: it happens only without key or secret,
    the error is the one of the metadata service, no refresh task is
    started, and [ROLE_NAME] is either untouched (the role name could not
    be read) or already overwritten with the role name whose token
    exchange failed. *)
Theorem NewClientMgr_failure (w : W) key secret rt msg rt' :
  NewClientMgr_ w key secret rt = (Err msg, rt') ->
  (key = "" \/ secret = "")
  /\ refreshing rt' = refreshing rt
  /\ ((RoleName NewMetaData_ w = Err msg /\ rt' = rt)
      \/ (exists rolename,
            RoleName NewMetaData_ w = Ok rolename /\
            RamRoleToken NewMetaData_ w rolename = Err msg /\
            ROLE_NAME rt' = rolename)).
Proof.
  unfold NewClientMgr.
  destruct (String.eqb key "" || String.eqb secret "") eqn:Hmode;
    [|simpl; discriminate].
  apply role_mode in Hmode.
  destruct (RoleName NewMetaData_ w) as [rolename|err] eqn:Hname.
  - simpl. destruct (RamRoleToken NewMetaData_ w rolename) as [role|err]
      eqn:Hrole; simpl; [discriminate|].
    intros [= -> <-]. simpl. split; [exact Hmode|]. split; [reflexivity|].
    right. exists rolename. auto.
  - intros [= -> <-]. split; [exact Hmode|]. split; [reflexivity|].
    left. auto.
Qed.

(** X5. With region, VPC, vswitch and zone all configured, the static
    accessor is in use, and it knows no role: a construction without key
    or secret fails with "unimplemented" and leaves the runtime as it
    was, whatever the live metadata service would answer. *)
Theorem static_accessor_needs_keys (w : W) key secret rt :
  cfg.Region Global <> "" -> cfg.VpcID Global <> "" ->
  cfg.VswitchID Global <> "" -> cfg.ZoneID Global <> "" ->
  key = "" \/ secret = "" ->
  NewClientMgr_ w key secret rt = (Err "unimplemented", rt).
Proof.
  intros Hr Hv Hs Hz Hmode. apply role_mode in Hmode.
  unfold NewClientMgr. rewrite Hmode.
  now rewrite (NewMetaData_complete Global liveMetaData Hr Hv Hs Hz).
Qed.

Local Abbreviation wiring_ :=
  (wiring Global DEFAULT_REGION KUBERNETES_ALICLOUD_IDENTITY liveMetaData).

Lemma assemble_wiring tok : wiring_ (assemble_ tok NewMetaData_).
Proof.
  unfold wiring, assemble, Instances, Routes, LoadBalancers.
  destruct tok as [[k s t] a]. simpl. repeat (split; [reflexivity|]).
  reflexivity.
Qed.

Lemma refresh_wiring (w : W) rt mgr : wiring_ mgr -> wiring_ (refresh w rt mgr).
Proof.
  intros Hw. unfold refresh.
  destruct (RamRoleToken (meta mgr) w (ROLE_NAME rt)); [|exact Hw].
  exact Hw.
Qed.

(** X6. Through the whole life of a constructed manager the refresh task
    changes credentials only: the metadata accessor stays the one
    [NewMetaData] chose, the instance and the route sub-client keep
    pointing to the ECS client object and the load-balancer sub-client to
    the SLB client object, and the region and user agent of both client
    objects stay as [NewClientMgr] set them. *)
Theorem refresh_changes_credentials_only (w : W) key secret rt0 mgr rt mgr' :
  NewClientMgr_ w key secret rt0 = (Ok mgr, rt) ->
  rtc (step rt) mgr mgr' ->
  meta mgr' = NewMetaData_
  /\ c (Instances mgr') = ecsclient
  /\ client (Routes mgr') = ecsclient
  /\ lb_c (LoadBalancers mgr') = slbclient
  /\ common.regionID (ecs_object mgr') = DEFAULT_REGION
  /\ common.regionID (slb_object mgr') = DEFAULT_REGION
  /\ common.userAgent (ecs_object mgr') = KUBERNETES_ALICLOUD_IDENTITY
  /\ common.userAgent (slb_object mgr') = KUBERNETES_ALICLOUD_IDENTITY.
Proof.
  intros Hnew Hreach.
  assert (Hinit : wiring_ mgr).
  { destruct (NewClientMgr_inv _ _ _ _ _ _ _ _ _ _ Hnew)
      as [(_ & _ & ->)|(_ & rolename & role & _ & _ & _ & ->)];
      apply assemble_wiring. }
  assert (Hend : wiring_ mgr').
  { clear Hnew. induction Hreach as [|x y z Hstep _ IH]; [exact Hinit|].
    apply IH. destruct Hstep. now apply refresh_wiring. }
  exact Hend.
Qed.

Lemma push_twice (role : metadata.RoleAuth) (cl : common.Client) :
  let push cl :=
    common.WithAccessKeySecret (metadata.AccessKeySecret role)
      (common.WithAccessKeyId (metadata.AccessKeyId role)
         (common.WithSecurityToken (metadata.SecurityToken role) cl)) in
  push (push cl) = push cl.
Proof. reflexivity. Qed.

(** X7. Refreshing twice against the same answer of the metadata service
    is the same as refreshing once. *)
Theorem refresh_idempotent (w : W) rt (mgr : ClientMgr W) :
  refresh w rt (refresh w rt mgr) = refresh w rt mgr.
Proof.
  unfold refresh at 2 3.
  destruct (RamRoleToken (meta mgr) w (ROLE_NAME rt)) as [role|err] eqn:Hfetch.
  - unfold refresh. simpl. rewrite Hfetch. reflexivity.
  - unfold refresh. now rewrite Hfetch.
Qed.

Lemma refresh_keeps_meta (w : W) rt (mgr : ClientMgr W) :
  meta (refresh w rt mgr) = meta mgr.
Proof.
  unfold refresh. now destruct (RamRoleToken (meta mgr) w (ROLE_NAME rt)).
Qed.

Lemma refresh_fetched (w : W) rt (mgr : ClientMgr W) role :
  RamRoleToken (meta mgr) w (ROLE_NAME rt) = Ok role ->
  auth (token (refresh w rt mgr)) = role
  /\ carried (refresh w rt mgr) ecsclient = signing_form (triple role)
  /\ carried (refresh w rt mgr) slbclient = signing_form (triple role).
Proof.
  intros Hfetch. unfold refresh. rewrite Hfetch. auto.
Qed.

Lemma run_app rt (mgr : ClientMgr W) (ws1 ws2 : list W) :
  run rt mgr (ws1 ++ ws2) = run rt (run rt mgr ws1) ws2.
Proof. unfold run. apply fold_left_app. Qed.

Lemma run_meta rt (mgr : ClientMgr W) (ws : list W) :
  meta (run rt mgr ws) = meta mgr.
Proof.
  revert mgr. induction ws as [|w ws IH]; intros mgr; [reflexivity|].
  unfold run in *. simpl. rewrite IH. unfold tick.
  destruct (refreshing rt); [|reflexivity].
  unfold refresh. now destruct (RamRoleToken (meta mgr) w (ROLE_NAME rt)).
Qed.

Lemma run_failures rt (mgr : ClientMgr W) (ws : list W) :
  Forall (fun w => is_err (RamRoleToken (meta mgr) w (ROLE_NAME rt)) = true) ws ->
  run rt mgr ws = mgr.
Proof.
  induction 1 as [|w ws Hw _ IH]; [reflexivity|].
  unfold run in *. simpl. unfold tick at 2, refresh.
  destruct (RamRoleToken (meta mgr) w (ROLE_NAME rt)); [discriminate|].
  destruct (refreshing rt); exact IH.
Qed.

(** X8. The credential in effect is the one of the last successful fetch:
    after any ticks, a tick whose fetch succeeds, and then ticks whose
    fetches all fail, the token is the fetched role token and both client
    objects hold its access-key ID, its security token and its secret
    followed by [&]. Ticks whose fetches all fail leave the manager as it
    was. *)
Theorem last_successful_fetch_wins rt (mgr : ClientMgr W)
    (before : list W) (w : W) (after : list W) role :
  refreshing rt = true ->
  RamRoleToken (meta mgr) w (ROLE_NAME rt) = Ok role ->
  Forall (fun w' => is_err (RamRoleToken (meta mgr) w' (ROLE_NAME rt)) = true)
         after ->
  auth (token (run rt mgr (before ++ w :: after))) = role
  /\ carried (run rt mgr (before ++ w :: after)) ecsclient
     = signing_form (triple role)
  /\ carried (run rt mgr (before ++ w :: after)) slbclient
     = signing_form (triple role)
  /\ run rt mgr after = mgr.
Proof.
  intros Hon Hfetch Hfail.
  assert (Hrun : run rt mgr (before ++ w :: after)
                 = refresh w rt (run rt mgr before)).
  { change (w :: after) with ([w] ++ after)%list. rewrite !run_app.
    set (m1 := run rt mgr before).
    assert (Hw : run rt m1 [w] = refresh w rt m1)
      by (unfold run, tick; simpl; now rewrite Hon).
    rewrite Hw. apply run_failures.
    rewrite refresh_keeps_meta. unfold m1. now rewrite run_meta. }
  rewrite Hrun.
  destruct (refresh_fetched w rt (run rt mgr before) role)
    as (Hauth & Hecs & Hslb); [now rewrite run_meta|].
  split; [exact Hauth|]. split; [exact Hecs|]. split; [exact Hslb|].
  now apply run_failures.
Qed.
End ClientManagerMore.

(** * More of loadbalancer_test.go *)

Section TestDoubleFacts.
Variable now : Z.
Variable loadbalancerAttrib : slb.LoadBalancerType -> slb.LoadBalancerType.

Local Abbreviation double :=
  (mockClient now (TestFindLoadBalancer_mock loadbalancerAttrib)).
Local Abbreviation describe :=
  (DescribeLoadBalancers (ClientSLBSDK:=double)).

(** What one request does to a slice with a first record. *)
Lemma describe_cons args b rest :
  describe args (b :: rest)
  = if nonempty (slb.Args.LoadBalancerId args) then
      (Ok (slb.setLoadBalancerId (slb.Args.LoadBalancerId args) b :: rest),
       slb.setLoadBalancerId (slb.Args.LoadBalancerId args) b :: rest)
    else if nonempty (slb.Args.LoadBalancerName args) then
      (Ok (slb.setLoadBalancerName (slb.Args.LoadBalancerName args) b :: rest),
       slb.setLoadBalancerName (slb.Args.LoadBalancerName args) b :: rest)
    else
      (Err ("loadbalancerid or loadbanancername must be specified."
              +:+ String "010" ""), b :: rest).
Proof.
  simpl.
  destruct (nonempty (slb.Args.LoadBalancerId args)); [reflexivity|].
  destruct (nonempty (slb.Args.LoadBalancerName args)); reflexivity.
Qed.

(** X9. Whatever is asked of the double of [TestFindLoadBalancer], the
    slice it closes over keeps its length and all records but the first;
    an answer without error is that slice itself, as the request left it,
    and has a first record; an answer with an error leaves the slice
    untouched. *)
Theorem describeLoadBalancers_frame args base answer base' :
  describe args base = (answer, base') ->
  length base' = length base
  /\ drop 1 base' = drop 1 base
  /\ (forall lbs, answer = Ok lbs -> lbs = base' /\ base' <> [])
  /\ (is_err answer = true -> base' = base).
Proof.
  assert (Hcase : forall (r : result (list slb.LoadBalancerType)) l,
    length l = length base -> drop 1 l = drop 1 base ->
    (forall lbs, r = Ok lbs -> lbs = l /\ l <> []) ->
    (is_err r = true -> l = base) ->
    (r, l) = (answer, base') ->
    length base' = length base
    /\ drop 1 base' = drop 1 base
    /\ (forall lbs, answer = Ok lbs -> lbs = base' /\ base' <> [])
    /\ (is_err answer = true -> base' = base)).
  { intros r l Hlen Hdrop Hok Herr [= <- <-]. auto. }
  destruct base as [|b rest].
  - simpl.
    destruct (nonempty (slb.Args.LoadBalancerId args));
      [|destruct (nonempty (slb.Args.LoadBalancerName args))];
      apply Hcase; try reflexivity; discriminate.
  - rewrite describe_cons.
    destruct (nonempty (slb.Args.LoadBalancerId args));
      [|destruct (nonempty (slb.Args.LoadBalancerName args))];
      apply Hcase; try reflexivity; try discriminate.
    all: intros lbs [= <-]; (split; [reflexivity|discriminate]).
Qed.

(** X10. The double remembers: a request by name followed by a request by
    ID returns one and the same first record carrying both the requested
    name and the requested ID; and when a request sets both an ID and a
    name, only the ID is written. *)
Theorem describeLoadBalancers_accumulates region name id b rest :
  name <> "" -> id <> "" ->
  let named := snd (describe (byName region name) (b :: rest)) in
  describe (byId region id) named
  = (Ok (slb.setLoadBalancerId id (slb.setLoadBalancerName name b) :: rest),
     slb.setLoadBalancerId id (slb.setLoadBalancerName name b) :: rest)
  /\ describe {| slb.Args.RegionId := region;
                 slb.Args.LoadBalancerId := id;
                 slb.Args.LoadBalancerName := name |} (b :: rest)
     = (Ok (slb.setLoadBalancerId id b :: rest),
        slb.setLoadBalancerId id b :: rest).
Proof.
  intros Hname Hid named. subst named.
  apply nonempty_true in Hname, Hid.
  split.
  - rewrite (describe_cons (byName region name)).
    cbn [byName slb.Args.LoadBalancerId slb.Args.LoadBalancerName].
    change (nonempty "") with false. cbv iota. rewrite Hname.
    cbn [snd]. rewrite describe_cons.
    cbn [byId slb.Args.LoadBalancerId]. now rewrite Hid.
  - rewrite describe_cons.
    cbn [slb.Args.LoadBalancerId]. now rewrite Hid.
Qed.
End TestDoubleFacts.

(** ** The refresh task and the mode *)

Section RefreshTaskFacts.
Context {W : Type}.
Variable Global : cfg.Global.
Variable DEFAULT_REGION : string.
Variable KUBERNETES_ALICLOUD_IDENTITY : string.
Variable liveMetaData : IMetaData W.

Local Abbreviation NewClientMgr_ :=
  (NewClientMgr Global DEFAULT_REGION KUBERNETES_ALICLOUD_IDENTITY liveMetaData).
Local Abbreviation NewMetaData_ := (NewMetaData Global liveMetaData).

(** X11. What a successful construction leaves behind: with key and secret
    the runtime is untouched, so [ROLE_NAME] keeps its value; without them
    [ROLE_NAME] becomes the role name the metadata service returned, which
    is the role every later refresh asks a token for, and the refresh
    task runs. Starting from no task, the task runs exactly when the
    token is active. *)
Theorem NewClientMgr_runtime (w : W) key secret rt mgr rt' :
  NewClientMgr_ w key secret rt = (Ok mgr, rt') ->
  (key <> "" /\ secret <> "" -> rt' = rt)
  /\ (key = "" \/ secret = "" ->
      RoleName NewMetaData_ w = Ok (ROLE_NAME rt')
      /\ refreshing rt' = true
      /\ forall w' role,
          RamRoleToken NewMetaData_ w' (ROLE_NAME rt') = Ok role ->
          auth (token (refresh w' rt' mgr)) = role)
  /\ (refreshing rt = false -> refreshing rt' = active (token mgr)).
Proof.
  intros Hnew.
  destruct (NewClientMgr_inv _ _ _ _ _ _ _ _ _ _ Hnew)
    as [(Hmode & -> & ->)|(Hmode & rolename & role & Hname & Hrole & -> & ->)].
  - apply key_mode in Hmode. split; [reflexivity|]. split.
    + intros [Hk|Hs]; tauto.
    + intros Hoff. now rewrite assemble_token.
  - apply role_mode in Hmode. split.
    + intros [Hk Hs]. destruct Hmode; contradiction.
    + split.
      * intros _. split; [exact Hname|]. split; [reflexivity|].
        intros w' role' Hfetch. apply refresh_fetched. exact Hfetch.
      * intros _. now rewrite assemble_token.
Qed.
End RefreshTaskFacts.

(** ** The added theorems at work *)

(** The role is known, its token is refused: the error comes back and
    [ROLE_NAME] has changed all the same. *)
Lemma NewClientMgr_failure_witness :
  NewClientMgr noOverrides "cn-hangzhou" "kubernetes.alicloud"
    (tokenlessMetaData "KubernetesWorkerRole") tt "" "" initialRuntime
  = (Err "EntityNotExist.Role",
     {| ROLE_NAME := "KubernetesWorkerRole"; refreshing := false |})
  /\ exists rolename,
      RoleName (NewMetaData noOverrides (tokenlessMetaData "KubernetesWorkerRole")) tt
      = Ok rolename
      /\ rolename <> ROLE_NAME initialRuntime.
Proof.
  destruct (NewClientMgr_failure noOverrides "cn-hangzhou"
              "kubernetes.alicloud" (tokenlessMetaData "KubernetesWorkerRole")
              tt "" "" initialRuntime "EntityNotExist.Role"
              {| ROLE_NAME := "KubernetesWorkerRole"; refreshing := false |}
              eq_refl) as (_ & _ & [[Hname _]|(rolename & Hname & _ & Hrole)]).
  - discriminate Hname.
  - split; [reflexivity|]. exists rolename. split; [exact Hname|].
    rewrite <- Hrole. discriminate.
Defined.

(** A complete cloud-config and no secret. *)
Lemma static_accessor_needs_keys_witness :
  NewClientMgr zonedOverrides "cn-hangzhou" "kubernetes.alicloud"
    (roleMetaData "KubernetesWorkerRole") (Some firstToken) "key" ""
    initialRuntime
  = (Err "unimplemented", initialRuntime).
Proof.
  apply (static_accessor_needs_keys zonedOverrides "cn-hangzhou"
           "kubernetes.alicloud" (roleMetaData "KubernetesWorkerRole")
           (Some firstToken) "key" "" initialRuntime);
    [discriminate | discriminate | discriminate | discriminate |].
  right. reflexivity.
Defined.

(** The role manager after a failed and a successful tick. *)
Lemma refresh_changes_credentials_only_witness :
  let mgr := run roleRuntime roleManager [None; Some secondToken] in
  c (Instances mgr) = ecsclient
  /\ client (Routes mgr) = ecsclient
  /\ lb_c (LoadBalancers mgr) = slbclient
  /\ common.regionID (slb_object mgr) = "cn-hangzhou"
  /\ common.userAgent (ecs_object mgr) = "kubernetes.alicloud"
  /\ common.securityToken (ecs_object mgr) = "token-two".
Proof.
  intros mgr.
  destruct (refresh_changes_credentials_only noOverrides "cn-hangzhou"
              "kubernetes.alicloud" (roleMetaData "KubernetesWorkerRole")
              (Some firstToken) "" "" initialRuntime roleManager roleRuntime
              mgr eq_refl (run_steps roleRuntime roleManager _))
    as (_ & Hi & Hr & Hl & _ & Hregion & Hagent & _).
  split; [exact Hi|]. split; [exact Hr|]. split; [exact Hl|].
  split; [exact Hregion|]. split; [exact Hagent|reflexivity].
Defined.

(** Down, first token... second token, down, down: the second token is
    in effect. *)
Lemma last_successful_fetch_wins_witness :
  auth (token (run roleRuntime roleManager
                 [None; Some firstToken; Some secondToken; None; None]))
  = secondToken
  /\ carried (run roleRuntime roleManager
                [None; Some firstToken; Some secondToken; None; None])
             slbclient
     = ("STS.two", "secret-two&", "token-two").
Proof.
  destruct (last_successful_fetch_wins roleRuntime roleManager
              [None; Some firstToken] (Some secondToken) [None; None]
              secondToken eq_refl eq_refl)
    as (Hauth & _ & Hslb & _).
  - repeat constructor.
  - split; [exact Hauth|exact Hslb].
Defined.

(** A request that names neither ID nor name, on the slice of the test. *)
Lemma describeLoadBalancers_frame_witness :
  snd (DescribeLoadBalancers
         (ClientSLBSDK:=mockClient 0 (TestFindLoadBalancer_mock (fun lb => lb)))
         (byName "cn-hangzhou" "") (newBaseLoadbalancer 0))
  = newBaseLoadbalancer 0.
Proof.
  refine (proj2 (proj2 (proj2
    (describeLoadBalancers_frame 0 (fun lb => lb) (byName "cn-hangzhou" "")
       (newBaseLoadbalancer 0) _ _ eq_refl))) eq_refl).
Defined.

(** Steps 1 and 2 of the test: the record found by ID still carries the
    name written by the lookup by name. *)
Lemma describeLoadBalancers_accumulates_witness :
  exists lb rest,
    fst (DescribeLoadBalancers
           (ClientSLBSDK:=mockClient 0 (TestFindLoadBalancer_mock (fun lb => lb)))
           (byId "cn-hangzhou" "lb-new")
           (snd (DescribeLoadBalancers
                   (ClientSLBSDK:=mockClient 0
                                    (TestFindLoadBalancer_mock (fun lb => lb)))
                   (byName "cn-hangzhou" "aabcdefghigklmnopqrstu")
                   (newBaseLoadbalancer 0))))
    = Ok (lb :: rest)
    /\ slb.LoadBalancerId lb = "lb-new"
    /\ slb.LoadBalancerName lb = "aabcdefghigklmnopqrstu".
Proof.
  destruct (describeLoadBalancers_accumulates 0 (fun lb => lb) "cn-hangzhou"
              "aabcdefghigklmnopqrstu" "lb-new"
              (hd (record "" "") (newBaseLoadbalancer 0)) [])
    as [Hboth _]; [discriminate | discriminate |].
  eexists _, _. split; [|split].
  - change (newBaseLoadbalancer 0)
      with [hd (record "" "") (newBaseLoadbalancer 0)].
    rewrite Hboth. reflexivity.
  - reflexivity.
  - reflexivity.
Defined.

(** The node without keys: the default role name is replaced and the
    task runs. *)
Lemma NewClientMgr_runtime_witness :
  RoleName (NewMetaData noOverrides (roleMetaData "KubernetesWorkerRole"))
    (Some firstToken) = Ok (ROLE_NAME roleRuntime)
  /\ ROLE_NAME roleRuntime <> ROLE_NAME initialRuntime
  /\ refreshing roleRuntime = active (token roleManager)
  /\ auth (token (refresh (Some secondToken) roleRuntime roleManager))
     = secondToken.
Proof.
  destruct (NewClientMgr_runtime noOverrides "cn-hangzhou"
              "kubernetes.alicloud" (roleMetaData "KubernetesWorkerRole")
              (Some firstToken) "" "" initialRuntime roleManager roleRuntime
              eq_refl) as (_ & Hrole & Htask).
  destruct Hrole as (Hname & _ & Hnext); [now left|].
  split; [exact Hname|]. split; [discriminate|].
  split; [now apply Htask|]. apply Hnext. reflexivity.
Defined.

(** A region is configured but no zone: the live service is asked for the
    region all the same. *)
Example partial_config_is_ignored :
  Region (NewMetaData partialOverrides (roleMetaData "KubernetesWorkerRole")) None
  = Ok "region-test".
Proof. reflexivity. Qed.
